(** * BMR HC64 Home Assistant integration: coordinator, climate and switch logic

    A shallow embedding of [custom_components/bmr_hc64]: the update
    coordinator ([coordinator.py]), the climate entity ([climate.py]), the
    circuit sensors ([sensor.py]) and the controller switches ([switch.py]).

    Conventions of the embedding:
    - A Python [float] temperature is the rational it denotes ([Q]), and the
      difference of two temperatures is taken exactly, where Python rounds it
      to the nearest double.  Rounding is monotone and 5.0 is a double, so an
      exact difference of at least 5.0 is also one for Python, and a
      difference Python finds below 5.0 is exactly below 5.0; the statements
      below on the sanity check's verdict only use these two directions.
    - A Python call either returns or raises: [outcome A].  Exceptions carry
      their class and their [args] tuple, as [e.args[0]] is inspected by the
      coordinator.
    - [dict[str, CircuitState]] is a [gmap string CircuitState]; lists indexed
      by a Python [int] use [py_getitem], with Python's negative indices.
    - The [pybmr] device client is not part of this repository; the record
      [Bmr] models it from its documented interface. *)

From Stdlib Require Import ZArith QArith Qabs Ascii String List Lia.
From stdpp Require Import gmap strings list fin_maps.

Open Scope string_scope.

(** ** Python values, exceptions and outcomes *)

Inductive ExnClass :=
| TimeoutError
| KeyError
| IndexError
| ValueError
| NameError
| AttributeError
| Exception
| ConfigEntryNotReady
| ConfigEntryAuthFailed
| ConfigEntryError.

Record PyExn := mkExn { exn_class : ExnClass; exn_args : list string }.

Inductive outcome (A : Type) :=
| Returns (a : A)
| Raises (e : PyExn).
Arguments Returns {A} a.
Arguments Raises {A} e.

#[global] Instance outcome_ret : MRet outcome := fun A a => Returns a.

#[global] Instance outcome_bind : MBind outcome := fun A B f m =>
  match m with
  | Returns a => f a
  | Raises e => Raises e
  end.

Definition raised_class {A} (m : outcome A) : option ExnClass :=
  match m with
  | Returns _ => None
  | Raises e => Some (exn_class e)
  end.

(** [int(s)] on the decimal strings a configuration form yields: an optional
    sign followed by one or more ASCII digits.  Any other string is a
    [ValueError] here. *)
Definition digit_of (c : ascii) : option Z :=
  let n := Z.of_nat (nat_of_ascii c) in
  if ((48 <=? n) && (n <=? 57))%Z then Some (n - 48)%Z else None.

Fixpoint digits_value (acc : Z) (s : string) : option Z :=
  match s with
  | EmptyString => Some acc
  | String c r =>
      match digit_of c with
      | Some d => digits_value (10 * acc + d)%Z r
      | None => None
      end
  end.

Definition unsigned_value (s : string) : option Z :=
  match s with
  | EmptyString => None
  | _ => digits_value 0 s
  end.

Definition int_of_string (s : string) : option Z :=
  match s with
  | String "-" r => Z.opp <$> unsigned_value r
  | String "+" r => unsigned_value r
  | _ => unsigned_value s
  end.

Definition py_int (s : string) : outcome Z :=
  match int_of_string s with
  | Some z => Returns z
  | None =>
      Raises (mkExn ValueError ["invalid literal for int() with base 10"])
  end.

(** [l[i]] for a Python list and a Python [int]. *)
Definition py_getitem {A} (l : list A) (i : Z) : outcome A :=
  let n := Z.of_nat (length l) in
  let j := if (i <? 0)%Z then (n + i)%Z else i in
  if ((0 <=? j) && (j <? n))%Z then
    match l !! Z.to_nat j with
    | Some x => Returns x
    | None => Raises (mkExn IndexError ["list index out of range"])
    end
  else Raises (mkExn IndexError ["list index out of range"]).

(** [d[k]] for a dict. *)
Definition dict_getitem {A} (d : gmap string A) (k : string) : outcome A :=
  match d !! k with
  | Some x => Returns x
  | None => Raises (mkExn KeyError [k])
  end.

(** [abs(b)] of a Python [bool] is the [int] 0 or 1; an [int] is truthy when
    it is not zero. *)
Definition py_abs_bool (b : bool) : Z := Z.abs (Z.b2z b).
Definition truthy (z : Z) : bool := negb (z =? 0)%Z.

(** [all(...)] over a generator whose items may raise: evaluation stops at the
    first falsy item or the first exception. *)
Fixpoint py_all (items : list (outcome bool)) : outcome bool :=
  match items with
  | [] => Returns true
  | x :: rest =>
      match x with
      | Returns true => py_all rest
      | Returns false => Returns false
      | Raises e => Raises e
      end
  end.

Definition py_any (l : list bool) : bool := existsb id l.

(** Naive local [datetime] values: microseconds since the start of the
    calendar; [date()] is the day number. *)
Definition datetime := Z.
Definition timedelta_minutes (m : Z) : Z := (m * 60000000)%Z.
Definition date (dt : datetime) : Z := (dt / 86400000000)%Z.
Definition at_clock (day hours minutes : Z) : datetime :=
  (day * 86400000000 + hours * 3600000000 + minutes * 60000000)%Z.

(** ** Data model ([coordinator.py]) *)

Definition MAX_TEMPERATURE_DELTA : Q := 5.

(** The dict returned by [Bmr.getCircuit]. *)
Record CircuitData := {
  cd_id : Z;
  cd_name : string;
  cd_enabled : option bool;
  cd_user_offset : option Q;
  cd_max_offset : option Q;
  cd_warning : option bool;
  cd_heating : option bool;
  cd_cooling : option bool;
  cd_low_mode : option bool;
  cd_summer_mode : option bool;
  cd_temperature : option Q;
  cd_target_temperature : option Q
}.

(** The dict returned by [Bmr.getCircuitSchedules]; [day_schedules] is read
    with [.get], so it may be missing. *)
Record CircuitSchedules := {
  day_schedules : option (list Z);
  starting_day : option Z
}.

Record CircuitState := {
  id : Z;
  name : string;
  friendly_name : string;
  cs_enabled : option bool;
  user_offset : option Q;
  max_offset : option Q;
  warning : option bool;
  heating : option bool;
  cooling : option bool;
  cs_low_mode : option bool;
  cs_summer_mode : option bool;
  temperature : option Q;
  target_temperature : option Q;
  schedules : option CircuitSchedules
}.

(** The low-mode descriptor returned by [Bmr.getLowMode]. *)
Record LowMode := {
  enabled : bool;
  lm_temperature : option Q;
  start_date : option datetime
}.

Record BmrControllerState := {
  circuits : gmap string CircuitState;
  hdo : option bool;
  unique_id : option string;
  low_mode : option LowMode;
  low_mode_assignments : list bool;
  summer_mode : option bool;
  summer_mode_assignments : list bool
}.

(** ** Circuit sanity check ([BmrUpdateCoordinator.sanity_check_circuit_state]) *)

(** The last test of the source is
    [previous.temperature is not None and abs(new - previous >= MAX_TEMPERATURE_DELTA)]:
    [abs] is applied to the result of the comparison.  The difference is the
    exact one (see the conventions at the top). *)
Definition temperature_delta_too_big (new_t : Q) (previous_t : option Q) : bool :=
  match previous_t with
  | None => false
  | Some pt =>
      truthy (py_abs_bool (Qle_bool MAX_TEMPERATURE_DELTA (new_t - pt)))
  end.

Definition sanity_check_circuit_state
    (circuit_data : CircuitData) (previous_circuit_state : option CircuitState)
  : bool :=
  match previous_circuit_state with
  | None => true
  | Some previous =>
      if negb (cd_id circuit_data =? id previous)%Z then false
      else
        match cd_temperature circuit_data with
        | None => false
        | Some t =>
            if temperature_delta_too_big t (temperature previous) then false
            else true
        end
  end.

(** ** The device client ([pybmr.Bmr]) *)

(** Modelled from the spec: the [pybmr] client is an external library, of
    which the repository only has the calls.  The model keeps what the
    controller stores (mode flags, per-circuit assignment lists, the schedule
    assigned to each circuit, the schedule bodies) and what it measures
    ([dev_circuits]).  Every call is synchronous and raises [fault] when the
    link to the controller is failing (a timeout, or the authentication
    failure with its fixed message).  Activation timestamps are the
    controller's own business and are left as they are by the writes. *)

Record Schedule := {
  sched_name : string;
  timetable : list (string * option Q)
}.

Record Bmr := {
  fault : option PyExn;
  dev_unique_id : string;
  dev_hdo : bool;
  dev_low_mode : LowMode;
  dev_low_mode_assignments : list bool;
  dev_summer_mode : bool;
  dev_summer_mode_assignments : list bool;
  dev_circuits : Z -> CircuitData;
  dev_circuit_schedules : gmap Z CircuitSchedules;
  dev_schedules : gmap Z Schedule
}.

(** The write calls the integration issues. *)
Inductive BmrCall :=
| setSummerMode (value : bool)
| setSummerModeAssignments (circuit_ids : list Z) (value : bool)
| setLowMode (value : bool) (temp : option Q)
| setLowModeAssignments (circuit_ids : list Z) (value : bool)
| setCircuitSchedules (circuit : Z) (schedule_ids : list Z) (first_day : option Z)
| setSchedule (schedule_id : Z) (title : string) (entries : list (string * option Q)).

(** Flag the listed circuits in an assignment list. *)
Definition assign (circuit_ids : list Z) (value : bool) (flags : list bool)
  : list bool :=
  foldl (fun acc i => if (0 <=? i)%Z then <[Z.to_nat i := value]> acc else acc)
        flags circuit_ids.

Definition unassigned_schedules : CircuitSchedules :=
  {| day_schedules := Some []; starting_day := Some 1%Z |}.

Definition bmr_apply (c : BmrCall) (b : Bmr) : Bmr :=
  match c with
  | setSummerMode v =>
      {| fault := fault b; dev_unique_id := dev_unique_id b; dev_hdo := dev_hdo b;
         dev_low_mode := dev_low_mode b;
         dev_low_mode_assignments := dev_low_mode_assignments b;
         dev_summer_mode := v;
         dev_summer_mode_assignments := dev_summer_mode_assignments b;
         dev_circuits := dev_circuits b;
         dev_circuit_schedules := dev_circuit_schedules b;
         dev_schedules := dev_schedules b |}
  | setSummerModeAssignments ids v =>
      {| fault := fault b; dev_unique_id := dev_unique_id b; dev_hdo := dev_hdo b;
         dev_low_mode := dev_low_mode b;
         dev_low_mode_assignments := dev_low_mode_assignments b;
         dev_summer_mode := dev_summer_mode b;
         dev_summer_mode_assignments := assign ids v (dev_summer_mode_assignments b);
         dev_circuits := dev_circuits b;
         dev_circuit_schedules := dev_circuit_schedules b;
         dev_schedules := dev_schedules b |}
  | setLowMode v t =>
      {| fault := fault b; dev_unique_id := dev_unique_id b; dev_hdo := dev_hdo b;
         dev_low_mode :=
           {| enabled := v;
              lm_temperature :=
                match t with
                | Some _ => t
                | None => lm_temperature (dev_low_mode b)
                end;
              start_date := start_date (dev_low_mode b) |};
         dev_low_mode_assignments := dev_low_mode_assignments b;
         dev_summer_mode := dev_summer_mode b;
         dev_summer_mode_assignments := dev_summer_mode_assignments b;
         dev_circuits := dev_circuits b;
         dev_circuit_schedules := dev_circuit_schedules b;
         dev_schedules := dev_schedules b |}
  | setLowModeAssignments ids v =>
      {| fault := fault b; dev_unique_id := dev_unique_id b; dev_hdo := dev_hdo b;
         dev_low_mode := dev_low_mode b;
         dev_low_mode_assignments := assign ids v (dev_low_mode_assignments b);
         dev_summer_mode := dev_summer_mode b;
         dev_summer_mode_assignments := dev_summer_mode_assignments b;
         dev_circuits := dev_circuits b;
         dev_circuit_schedules := dev_circuit_schedules b;
         dev_schedules := dev_schedules b |}
  | setCircuitSchedules i ids d =>
      {| fault := fault b; dev_unique_id := dev_unique_id b; dev_hdo := dev_hdo b;
         dev_low_mode := dev_low_mode b;
         dev_low_mode_assignments := dev_low_mode_assignments b;
         dev_summer_mode := dev_summer_mode b;
         dev_summer_mode_assignments := dev_summer_mode_assignments b;
         dev_circuits := dev_circuits b;
         dev_circuit_schedules :=
           <[i := {| day_schedules := Some ids;
                     starting_day := Some (default 1%Z d) |}]>
             (dev_circuit_schedules b);
         dev_schedules := dev_schedules b |}
  | setSchedule i n es =>
      {| fault := fault b; dev_unique_id := dev_unique_id b; dev_hdo := dev_hdo b;
         dev_low_mode := dev_low_mode b;
         dev_low_mode_assignments := dev_low_mode_assignments b;
         dev_summer_mode := dev_summer_mode b;
         dev_summer_mode_assignments := dev_summer_mode_assignments b;
         dev_circuits := dev_circuits b;
         dev_circuit_schedules := dev_circuit_schedules b;
         dev_schedules :=
           <[i := {| sched_name := n; timetable := es |}]> (dev_schedules b) |}
  end.

(** A read answers from the stored state, unless the link is failing. *)
Definition request {A} (b : Bmr) (answer : A) : outcome A :=
  match fault b with
  | Some e => Raises e
  | None => Returns answer
  end.

Definition getUniqueId (b : Bmr) : outcome string := request b (dev_unique_id b).
Definition getHDO (b : Bmr) : outcome bool := request b (dev_hdo b).
Definition getLowMode (b : Bmr) : outcome LowMode := request b (dev_low_mode b).
Definition getLowModeAssignments (b : Bmr) : outcome (list bool) :=
  request b (dev_low_mode_assignments b).
Definition getSummerMode (b : Bmr) : outcome bool := request b (dev_summer_mode b).
Definition getSummerModeAssignments (b : Bmr) : outcome (list bool) :=
  request b (dev_summer_mode_assignments b).
Definition getCircuit (b : Bmr) (i : Z) : outcome CircuitData :=
  request b (dev_circuits b i).
Definition getCircuitSchedules (b : Bmr) (i : Z) : outcome CircuitSchedules :=
  request b (default unassigned_schedules (dev_circuit_schedules b !! i)).

(** ** The update coordinator ([BmrUpdateCoordinator]) *)

(** A circuit subentry of the config entry: [CONF_CIRCUIT_ID] and
    [CONF_CIRCUIT_NAME]. *)
Record Subentry := {
  circuit_id : string;
  circuit_name : string
}.

Record BmrUpdateCoordinator := {
  subentries : list Subentry;
  url : string;
  data : option BmrControllerState;
  bmr : Bmr
}.

Definition previous_circuit_state (self : BmrUpdateCoordinator) (cid : string)
  : option CircuitState :=
  match data self with
  | Some d => circuits d !! cid
  | None => None
  end.

Definition make_circuit_state (circuit_data : CircuitData) (label : string)
    (circuit_schedules : CircuitSchedules) : CircuitState :=
  {| id := cd_id circuit_data;
     name := cd_name circuit_data;
     friendly_name := label;
     cs_enabled := cd_enabled circuit_data;
     user_offset := cd_user_offset circuit_data;
     max_offset := cd_max_offset circuit_data;
     warning := cd_warning circuit_data;
     heating := cd_heating circuit_data;
     cooling := cd_cooling circuit_data;
     cs_low_mode := cd_low_mode circuit_data;
     cs_summer_mode := cd_summer_mode circuit_data;
     temperature := cd_temperature circuit_data;
     target_temperature := cd_target_temperature circuit_data;
     schedules := Some circuit_schedules |}.

(** One turn of the loop over the subentries. *)
Definition fetch_circuit (self : BmrUpdateCoordinator)
    (acc : gmap string CircuitState) (subentry : Subentry)
  : outcome (gmap string CircuitState) :=
  i ← py_int (circuit_id subentry);
  circuit_data ← getCircuit (bmr self) i;
  circuit_schedules ← getCircuitSchedules (bmr self) i;
  if sanity_check_circuit_state circuit_data
       (previous_circuit_state self (circuit_id subentry))
  then mret (<[circuit_id subentry :=
                 make_circuit_state circuit_data (circuit_name subentry)
                                    circuit_schedules]> acc)
  else mret acc.

Fixpoint fetch_circuits (self : BmrUpdateCoordinator)
    (todo : list Subentry) (acc : gmap string CircuitState)
  : outcome (gmap string CircuitState) :=
  match todo with
  | [] => mret acc
  | subentry :: rest =>
      acc' ← fetch_circuit self acc subentry;
      fetch_circuits self rest acc'
  end.

(** The body of the [try] block. *)
Definition fetch_state (self : BmrUpdateCoordinator) : outcome BmrControllerState :=
  uid ← getUniqueId (bmr self);
  tariff ← getHDO (bmr self);
  lm ← getLowMode (bmr self);
  lma ← getLowModeAssignments (bmr self);
  sm ← getSummerMode (bmr self);
  sma ← getSummerModeAssignments (bmr self);
  cs ← fetch_circuits self (subentries self) ∅;
  mret {| circuits := cs;
          hdo := Some tariff;
          unique_id := Some uid;
          low_mode := Some lm;
          low_mode_assignments := lma;
          summer_mode := Some sm;
          summer_mode_assignments := sma |}.

Definition AUTH_FAILED : string := "Authentication failed, check username/password".

(** Names bound at module level by the imports and definitions of
    [coordinator.py] and of [__init__.py]. *)
Definition coordinator_globals : list string :=
  ["dataclass"; "timedelta"; "logging"; "Any"; "Bmr"; "ConfigEntry"; "CONF_URL";
   "HomeAssistant"; "ConfigEntryAuthFailed"; "ConfigEntryError";
   "ConfigEntryNotReady"; "DataUpdateCoordinator"; "CONF_CIRCUIT_ID";
   "CONF_CIRCUIT_NAME"; "DOMAIN"; "_LOGGER"; "MAX_TEMPERATURE_DELTA";
   "CircuitState"; "BmrControllerState"; "BmrUpdateCoordinator"].

Definition init_globals : list string :=
  ["annotations"; "logging"; "Bmr"; "CONF_PASSWORD"; "CONF_TIMEOUT"; "CONF_URL";
   "CONF_USERNAME"; "Platform"; "HomeAssistant"; "ConfigEntryAuthFailed";
   "ConfigEntryError"; "ConfigEntryNotReady"; "cv"; "ConfigType";
   "BmrConfigEntry"; "DOMAIN"; "BmrUpdateCoordinator"; "_PLATFORMS"; "_LOGGER";
   "CONFIG_SCHEMA"; "async_setup"; "async_setup_entry"; "async_reload_entry";
   "async_unload_entry"].

(** Looking a global name up raises [NameError] when nothing binds it. *)
Definition lookup_global (globals : list string) (n : string) : outcome unit :=
  if existsb (String.eqb n) globals then Returns tt
  else Raises (mkExn NameError ["name '" ++ n ++ "' is not defined"]).

(** The [except] clauses shared by [_async_update_data] and
    [async_setup_entry]; the result is the exception that leaves the
    function.  [now] is what [datetime.now()] would answer. *)
Definition near_midnight_check (globals : list string) (now : datetime)
    (message : string) : outcome PyExn :=
  _ ← lookup_global globals "datetime";
  let dt_now := now in
  _ ← lookup_global globals "timedelta";
  let dt_ago := (dt_now - timedelta_minutes 15)%Z in
  let dt_ahead := (dt_now + timedelta_minutes 15)%Z in
  if ((date dt_now =? date dt_ago) && (date dt_now =? date dt_ahead))%Z
  then mret (mkExn ConfigEntryAuthFailed [message])
  else mret (mkExn ConfigEntryError ["Unexpected error"]).

Definition handle_fetch_error (globals : list string) (target : string)
    (now : datetime) (e : PyExn) : PyExn :=
  match exn_class e with
  | TimeoutError =>
      mkExn ConfigEntryNotReady ["Timed out while connecting to " ++ target]
  | _ =>
      match exn_args e with
      | [] => mkExn IndexError ["tuple index out of range"]
      | first :: _ =>
          if String.eqb first AUTH_FAILED then
            match near_midnight_check globals now first with
            | Returns raised => raised
            | Raises lookup_error => lookup_error
            end
          else mkExn ConfigEntryError ["Unexpected error"]
      end
  end.

Definition _async_update_data (now : datetime) (self : BmrUpdateCoordinator)
  : outcome BmrControllerState :=
  match fetch_state self with
  | Returns snapshot => Returns snapshot
  | Raises e => Raises (handle_fetch_error coordinator_globals (url self) now e)
  end.

(** The connection probe at the top of [async_setup_entry] ([__init__.py]). *)
Definition async_setup_entry_probe (now : datetime) (target : string) (b : Bmr)
  : outcome unit :=
  match getUniqueId b with
  | Returns _ => Returns tt
  | Raises e => Raises (handle_fetch_error init_globals target now e)
  end.

(** ** Stateful methods *)

(** A method runs on a mutable object of type [S]: it returns or raises, and
    leaves the object as mutated up to that point. *)
Definition Eff (S A : Type) : Type := S -> outcome A * S.

#[global] Instance eff_ret {S} : MRet (Eff S) := fun A a s => (Returns a, s).

#[global] Instance eff_bind {S} : MBind (Eff S) := fun A B f m s =>
  match m s with
  | (Returns a, s') => f a s'
  | (Raises e, s') => (Raises e, s')
  end.

Definition lift {S A} (m : outcome A) : Eff S A := fun s => (m, s).
Definition modify {S} (f : S -> S) : Eff S unit := fun s => (Returns tt, f s).
Definition gets {S A} (f : S -> A) : Eff S A := fun s => (Returns (f s), s).

(** ** Climate entity ([climate.py]) *)

Definition CLIMATE_PRESET_NONE : string := "none".
Definition CLIMATE_PRESET_AWAY : string := "away".

Inductive HVACMode := OFF | HEAT | COOL | HEAT_COOL | AUTO | DRY | FAN_ONLY.
Inductive HVACAction := ACTION_OFF | HEATING | COOLING | IDLE.

#[global] Instance HVACMode_eq_dec : EqDecision HVACMode.
Proof. solve_decision. Defined.

(** The constructor arguments, never reassigned afterwards. *)
Record ClimateConfig := {
  _circuit_id : string;
  _circuit_name : string;
  _circuit_manual_mode_schedule : Z;
  _circuit_auto_mode_daily_schedules : list string;
  _circuit_auto_mode_daily_schedules_starting_day : Z;
  _away_temperature : Q;
  _enable_cooling : bool
}.

Record BmrClimateEntity := {
  conf : ClimateConfig;
  _circuit_state : option CircuitState;
  _summer_mode : option bool;
  _summer_mode_assignments : option (list bool);
  _low_mode : option LowMode;
  _low_mode_assignments : option (list bool);
  _attr_preset_mode : option string;
  _attr_hvac_mode : option HVACMode;
  _attr_hvac_action : option HVACAction;
  _attr_current_temperature : option Q;
  _attr_target_temperature : option Q;
  (** how many times [async_write_ha_state] published the attributes *)
  ha_state_writes : nat
}.

(** The entity as [__init__] leaves it. *)
Definition new_climate (c : ClimateConfig) : BmrClimateEntity :=
  {| conf := c; _circuit_state := None; _summer_mode := None;
     _summer_mode_assignments := Some []; _low_mode := None;
     _low_mode_assignments := Some []; _attr_preset_mode := None;
     _attr_hvac_mode := None; _attr_hvac_action := None;
     _attr_current_temperature := None; _attr_target_temperature := None;
     ha_state_writes := 0 |}.

Definition set_circuit_state (v : option CircuitState) (e : BmrClimateEntity) :=
  {| conf := conf e; _circuit_state := v; _summer_mode := _summer_mode e;
     _summer_mode_assignments := _summer_mode_assignments e;
     _low_mode := _low_mode e; _low_mode_assignments := _low_mode_assignments e;
     _attr_preset_mode := _attr_preset_mode e; _attr_hvac_mode := _attr_hvac_mode e;
     _attr_hvac_action := _attr_hvac_action e;
     _attr_current_temperature := _attr_current_temperature e;
     _attr_target_temperature := _attr_target_temperature e;
     ha_state_writes := ha_state_writes e |}.

(** The four assignments that follow the circuit lookup in the handler. *)
Definition set_controller_modes (d : BmrControllerState) (e : BmrClimateEntity) :=
  {| conf := conf e; _circuit_state := _circuit_state e;
     _summer_mode := summer_mode d;
     _summer_mode_assignments := Some (summer_mode_assignments d);
     _low_mode := low_mode d;
     _low_mode_assignments := Some (low_mode_assignments d);
     _attr_preset_mode := _attr_preset_mode e; _attr_hvac_mode := _attr_hvac_mode e;
     _attr_hvac_action := _attr_hvac_action e;
     _attr_current_temperature := _attr_current_temperature e;
     _attr_target_temperature := _attr_target_temperature e;
     ha_state_writes := ha_state_writes e |}.

Definition set_attr_preset_mode (v : option string) (e : BmrClimateEntity) :=
  {| conf := conf e; _circuit_state := _circuit_state e; _summer_mode := _summer_mode e;
     _summer_mode_assignments := _summer_mode_assignments e;
     _low_mode := _low_mode e; _low_mode_assignments := _low_mode_assignments e;
     _attr_preset_mode := v; _attr_hvac_mode := _attr_hvac_mode e;
     _attr_hvac_action := _attr_hvac_action e;
     _attr_current_temperature := _attr_current_temperature e;
     _attr_target_temperature := _attr_target_temperature e;
     ha_state_writes := ha_state_writes e |}.

Definition set_attr_hvac_mode (v : option HVACMode) (e : BmrClimateEntity) :=
  {| conf := conf e; _circuit_state := _circuit_state e; _summer_mode := _summer_mode e;
     _summer_mode_assignments := _summer_mode_assignments e;
     _low_mode := _low_mode e; _low_mode_assignments := _low_mode_assignments e;
     _attr_preset_mode := _attr_preset_mode e; _attr_hvac_mode := v;
     _attr_hvac_action := _attr_hvac_action e;
     _attr_current_temperature := _attr_current_temperature e;
     _attr_target_temperature := _attr_target_temperature e;
     ha_state_writes := ha_state_writes e |}.

Definition set_attr_hvac_action (v : option HVACAction) (e : BmrClimateEntity) :=
  {| conf := conf e; _circuit_state := _circuit_state e; _summer_mode := _summer_mode e;
     _summer_mode_assignments := _summer_mode_assignments e;
     _low_mode := _low_mode e; _low_mode_assignments := _low_mode_assignments e;
     _attr_preset_mode := _attr_preset_mode e; _attr_hvac_mode := _attr_hvac_mode e;
     _attr_hvac_action := v;
     _attr_current_temperature := _attr_current_temperature e;
     _attr_target_temperature := _attr_target_temperature e;
     ha_state_writes := ha_state_writes e |}.

Definition set_attr_current_temperature (v : option Q) (e : BmrClimateEntity) :=
  {| conf := conf e; _circuit_state := _circuit_state e; _summer_mode := _summer_mode e;
     _summer_mode_assignments := _summer_mode_assignments e;
     _low_mode := _low_mode e; _low_mode_assignments := _low_mode_assignments e;
     _attr_preset_mode := _attr_preset_mode e; _attr_hvac_mode := _attr_hvac_mode e;
     _attr_hvac_action := _attr_hvac_action e;
     _attr_current_temperature := v;
     _attr_target_temperature := _attr_target_temperature e;
     ha_state_writes := ha_state_writes e |}.

Definition set_attr_target_temperature (v : option Q) (e : BmrClimateEntity) :=
  {| conf := conf e; _circuit_state := _circuit_state e; _summer_mode := _summer_mode e;
     _summer_mode_assignments := _summer_mode_assignments e;
     _low_mode := _low_mode e; _low_mode_assignments := _low_mode_assignments e;
     _attr_preset_mode := _attr_preset_mode e; _attr_hvac_mode := _attr_hvac_mode e;
     _attr_hvac_action := _attr_hvac_action e;
     _attr_current_temperature := _attr_current_temperature e;
     _attr_target_temperature := v;
     ha_state_writes := ha_state_writes e |}.

Definition async_write_ha_state (e : BmrClimateEntity) :=
  {| conf := conf e; _circuit_state := _circuit_state e; _summer_mode := _summer_mode e;
     _summer_mode_assignments := _summer_mode_assignments e;
     _low_mode := _low_mode e; _low_mode_assignments := _low_mode_assignments e;
     _attr_preset_mode := _attr_preset_mode e; _attr_hvac_mode := _attr_hvac_mode e;
     _attr_hvac_action := _attr_hvac_action e;
     _attr_current_temperature := _attr_current_temperature e;
     _attr_target_temperature := _attr_target_temperature e;
     ha_state_writes := S (ha_state_writes e) |}.

(** [_update_preset_mode]: the value assigned to [_attr_preset_mode]. *)
Definition preset_mode_of (lm : option LowMode) : option string :=
  match lm with
  | None => None
  | Some descriptor =>
      if enabled descriptor then Some CLIMATE_PRESET_AWAY
      else Some CLIMATE_PRESET_NONE
  end.

Definition _update_preset_mode : Eff BmrClimateEntity unit :=
  fun self => (Returns tt, set_attr_preset_mode (preset_mode_of (_low_mode self)) self).

(** [self._summer_mode_assignments[int(self._circuit_id)]] *)
Definition summer_assigned (self : BmrClimateEntity) (flags : list bool)
  : outcome bool :=
  i ← py_int (_circuit_id (conf self));
  py_getitem flags i.

(** [[int(manual)] == self._circuit_state.schedules.get("day_schedules")] *)
Definition override_schedule_assigned (self : BmrClimateEntity) (cs : CircuitState)
  : outcome bool :=
  match schedules cs with
  | None =>
      Raises (mkExn AttributeError ["'NoneType' object has no attribute 'get'"])
  | Some assigned =>
      Returns (bool_decide (Some [_circuit_manual_mode_schedule (conf self)]
                            = day_schedules assigned))
  end.

(** The value [_update_hvac_mode] assigns to [_attr_hvac_mode]. *)
Definition hvac_mode_of (self : BmrClimateEntity) : outcome (option HVACMode) :=
  match _circuit_state self, _summer_mode self, _summer_mode_assignments self with
  | Some cs, Some _, Some flags =>
      off ← summer_assigned self flags;
      if off : bool then mret (Some OFF)
      else
        manual ← override_schedule_assigned self cs;
        if manual : bool
        then mret (Some (if _enable_cooling (conf self) then HEAT_COOL else HEAT))
        else mret (Some AUTO)
  | _, _, _ => mret None
  end.

Definition _update_hvac_mode : Eff BmrClimateEntity unit :=
  fun self =>
    match hvac_mode_of self with
    | Returns m => (Returns tt, set_attr_hvac_mode m self)
    | Raises e => (Raises e, self)
    end.

Definition truthy_flag (b : option bool) : bool := default false b.

Definition hvac_action_of (self : BmrClimateEntity) : outcome (option HVACAction) :=
  match _circuit_state self, _summer_mode self, _summer_mode_assignments self with
  | Some cs, Some _, Some flags =>
      off ← summer_assigned self flags;
      if off : bool then mret (Some ACTION_OFF)
      else if truthy_flag (heating cs) then mret (Some HEATING)
      else if truthy_flag (cooling cs) then mret (Some COOLING)
      else mret (Some IDLE)
  | _, _, _ => mret None
  end.

Definition _update_hvac_action : Eff BmrClimateEntity unit :=
  fun self =>
    match hvac_action_of self with
    | Returns a => (Returns tt, set_attr_hvac_action a self)
    | Raises e => (Raises e, self)
    end.

Definition _update_current_temperature : Eff BmrClimateEntity unit :=
  fun self =>
    (Returns tt,
     set_attr_current_temperature
       (match _circuit_state self with
        | None => None
        | Some cs => temperature cs
        end) self).

Definition _update_target_temperature : Eff BmrClimateEntity unit :=
  fun self =>
    (Returns tt,
     set_attr_target_temperature
       (match _circuit_state self with
        | None => None
        | Some cs => target_temperature cs
        end) self).

(** [BmrClimateEntity._handle_coordinator_update], run on the coordinator's
    latest snapshot. *)
Definition climate_handle_coordinator_update (snapshot : BmrControllerState)
  : Eff BmrClimateEntity unit :=
  cid ← gets (fun self => _circuit_id (conf self));
  cs ← lift (dict_getitem (circuits snapshot) cid);
  modify (set_circuit_state (Some cs));;
  modify (set_controller_modes snapshot);;
  _update_preset_mode;;
  _update_hvac_mode;;
  _update_hvac_action;;
  _update_current_temperature;;
  _update_target_temperature;;
  modify async_write_ha_state.

(** ** Write actions *)

(** What an action runs against: the device, the journal of the write calls
    that reached it, and the refreshes requested from the coordinator. *)
Record Hass := {
  device : Bmr;
  journal : list BmrCall;
  refresh_requests : nat
}.

(** [await hass.async_add_executor_job(bmr.<write>, ...)] *)
Definition executor_job (c : BmrCall) : Eff Hass unit :=
  fun h =>
    match fault (device h) with
    | Some e => (Raises e, h)
    | None =>
        (Returns tt,
         {| device := bmr_apply c (device h);
            journal := journal h ++ [c];
            refresh_requests := refresh_requests h |})
    end.

(** [await hass.async_add_executor_job(bmr.<read>)] *)
Definition executor_read {A} (read : Bmr -> outcome A) : Eff Hass A :=
  fun h => (read (device h), h).

Definition async_request_refresh : Eff Hass unit :=
  modify (fun h =>
    {| device := device h; journal := journal h;
       refresh_requests := S (refresh_requests h) |}).

Definition run {A} (m : Eff Hass A) (b : Bmr) : outcome A * Hass :=
  m {| device := b; journal := []; refresh_requests := 0 |}.

(** [[int(x) for x in xs]] *)
Fixpoint py_ints (xs : list string) : outcome (list Z) :=
  match xs with
  | [] => mret []
  | x :: rest =>
      i ← py_int x;
      others ← py_ints rest;
      mret (i :: others)
  end.

Definition summer_mode_part (self : BmrClimateEntity) (hvac_mode : HVACMode)
  : Eff Hass unit :=
  if decide (hvac_mode = OFF) then
    i ← lift (py_int (_circuit_id (conf self)));
    executor_job (setSummerModeAssignments [i] true);;
    on ← executor_read getSummerMode;
    if negb on then executor_job (setSummerMode true) else mret tt
  else
    i ← lift (py_int (_circuit_id (conf self)));
    executor_job (setSummerModeAssignments [i] false);;
    flags ← executor_read getSummerModeAssignments;
    if negb (py_any flags) then executor_job (setSummerMode false) else mret tt.

Definition schedule_part (self : BmrClimateEntity) (hvac_mode : HVACMode)
  : Eff Hass unit :=
  if decide (hvac_mode = HEAT ∨ hvac_mode = HEAT_COOL) then
    i ← lift (py_int (_circuit_id (conf self)));
    executor_job
      (setCircuitSchedules i [_circuit_manual_mode_schedule (conf self)] None)
  else
    i ← lift (py_int (_circuit_id (conf self)));
    rotation ← lift (py_ints (_circuit_auto_mode_daily_schedules (conf self)));
    executor_job
      (setCircuitSchedules i rotation
         (Some (_circuit_auto_mode_daily_schedules_starting_day (conf self)))).

Definition async_set_hvac_mode (self : BmrClimateEntity) (hvac_mode : HVACMode)
  : Eff Hass unit :=
  summer_mode_part self hvac_mode;;
  schedule_part self hvac_mode;;
  async_request_refresh.

Definition async_set_preset_mode (self : BmrClimateEntity) (preset_mode : string)
  : Eff Hass unit :=
  (if String.eqb preset_mode CLIMATE_PRESET_AWAY then
     i ← lift (py_int (_circuit_id (conf self)));
     executor_job (setLowModeAssignments [i] true);;
     lm ← executor_read getLowMode;
     if negb (enabled lm)
     then executor_job (setLowMode true (Some (_away_temperature (conf self))))
     else mret tt
   else
     i ← lift (py_int (_circuit_id (conf self)));
     executor_job (setLowModeAssignments [i] false);;
     flags ← executor_read getLowModeAssignments;
     if negb (py_any flags) then executor_job (setLowMode false None)
     else mret tt);;
  async_request_refresh.

(** [temperature] is [kwargs.get(ATTR_TEMPERATURE)]. *)
Definition async_set_temperature (self : BmrClimateEntity) (temp : option Q)
  : Eff Hass unit :=
  executor_job
    (setSchedule (_circuit_manual_mode_schedule (conf self))
                 (_circuit_name (conf self) ++ " override")
                 [("00:00", temp)]);;
  (if bool_decide (_attr_hvac_mode self = Some HEAT
                   ∨ _attr_hvac_mode self = Some HEAT_COOL)
   then mret tt
   else if _enable_cooling (conf self)
        then async_set_hvac_mode self HEAT_COOL
        else async_set_hvac_mode self HEAT);;
  async_request_refresh.

(** ** Circuit sensors ([sensor.py]) *)

Record BmrCircuitSensor := {
  sensor_circuit_id : string;
  sensor_circuit_state : option CircuitState;
  _attr_native_value : option Q;
  sensor_state_writes : nat
}.

Definition sensor_handle_coordinator_update
    (reading : CircuitState -> option Q) (snapshot : BmrControllerState)
  : Eff BmrCircuitSensor unit :=
  cid ← gets sensor_circuit_id;
  cs ← lift (dict_getitem (circuits snapshot) cid);
  modify (fun self =>
    {| sensor_circuit_id := sensor_circuit_id self;
       sensor_circuit_state := Some cs;
       _attr_native_value := reading cs;
       sensor_state_writes := S (sensor_state_writes self) |}).

(** [BmrCircuitTemperature._handle_coordinator_update] *)
Definition temperature_handle_coordinator_update :=
  sensor_handle_coordinator_update temperature.

(** [BmrCircuitTargetTemperature._handle_coordinator_update] *)
Definition target_temperature_handle_coordinator_update :=
  sensor_handle_coordinator_update target_temperature.

(** ** Controller switches ([switch.py]) *)

(** [[int(circuit.id) for circuit in self.coordinator.data.circuits.values()]] *)
Definition snapshot_circuit_ids (snapshot : BmrControllerState) : list Z :=
  id <$> (map_to_list (circuits snapshot)).*2.

(** [BmrControllerAwayModeSwitch.async_turn_on] *)
Definition away_async_turn_on (snapshot : BmrControllerState) : Eff Hass unit :=
  executor_job (setLowModeAssignments (snapshot_circuit_ids snapshot) true);;
  executor_job (setLowMode true None);;
  async_request_refresh.

(** [BmrControllerAwayModeSwitch.async_turn_off] *)
Definition away_async_turn_off (snapshot : BmrControllerState) : Eff Hass unit :=
  executor_job (setLowModeAssignments (snapshot_circuit_ids snapshot) false);;
  executor_job (setLowMode false None);;
  async_request_refresh.

(** [self.coordinator.data.summer_mode_assignments[int(circuit_id)]] *)
Definition circuit_summer_assigned (snapshot : BmrControllerState) (cid : string)
  : outcome bool :=
  i ← py_int cid;
  py_getitem (summer_mode_assignments snapshot) i.

(** [BmrControllerPowerSwitch._handle_coordinator_update]: the value assigned
    to [_attr_is_on].  [x and y] leaves [y] unevaluated when [x] is falsy, and
    [None] is falsy. *)
Definition power_is_on (_circuit_ids : list string) (snapshot : BmrControllerState)
  : outcome bool :=
  match summer_mode snapshot with
  | Some true =>
      everyone ← py_all (circuit_summer_assigned snapshot <$> _circuit_ids);
      mret (negb everyone)
  | _ => mret true
  end.

(** [BmrControllerPowerSwitch.async_turn_on] *)
Definition power_async_turn_on (snapshot : BmrControllerState) : Eff Hass unit :=
  executor_job (setSummerMode false);;
  executor_job (setSummerModeAssignments (snapshot_circuit_ids snapshot) false);;
  async_request_refresh.

(** [BmrControllerPowerSwitch.async_turn_off] *)
Definition power_async_turn_off (snapshot : BmrControllerState) : Eff Hass unit :=
  executor_job (setSummerMode true);;
  executor_job (setSummerModeAssignments (snapshot_circuit_ids snapshot) true);;
  async_request_refresh.

(** ** Remaining entities ([switch.py], [binary_sensor.py], [climate.py]) *)

(** [BmrControllerAwayModeSwitch]: the attributes its handler assigns. *)
Record BmrControllerAwayModeSwitch := {
  away_attr_is_on : option bool;
  _away_temperature_attr : option Q;
  _away_start_date : option datetime;
  away_state_writes : nat
}.

(** [BmrControllerAwayModeSwitch._handle_coordinator_update]: three [.get]
    reads on the low-mode descriptor, then the state is published. *)
Definition away_handle_coordinator_update (snapshot : BmrControllerState)
  : Eff BmrControllerAwayModeSwitch unit :=
  fun self =>
    match low_mode snapshot with
    | None =>
        (Raises (mkExn AttributeError ["'NoneType' object has no attribute 'get'"]),
         self)
    | Some descriptor =>
        (Returns tt,
         {| away_attr_is_on := Some (enabled descriptor);
            _away_temperature_attr := lm_temperature descriptor;
            _away_start_date := start_date descriptor;
            away_state_writes := S (away_state_writes self) |})
    end.

(** [BmrControllerPowerSwitch] *)
Record BmrControllerPowerSwitch := {
  _circuit_ids : list string;
  power_attr_is_on : option bool;
  power_state_writes : nat
}.

(** [BmrControllerPowerSwitch._handle_coordinator_update] *)
Definition power_handle_coordinator_update (snapshot : BmrControllerState)
  : Eff BmrControllerPowerSwitch unit :=
  fun self =>
    match power_is_on (_circuit_ids self) snapshot with
    | Returns on =>
        (Returns tt,
         {| _circuit_ids := _circuit_ids self;
            power_attr_is_on := Some on;
            power_state_writes := S (power_state_writes self) |})
    | Raises e => (Raises e, self)
    end.

(** The power switch as [async_setup_entry] of [switch.py] builds it: one
    identifier per circuit subentry. *)
Definition new_power_switch (entries : list Subentry) : BmrControllerPowerSwitch :=
  {| _circuit_ids := circuit_id <$> entries;
     power_attr_is_on := None;
     power_state_writes := 0 |}.

(** [BmrControllerHDO] ([binary_sensor.py]) *)
Record BmrControllerHDO := {
  hdo_attr_is_on : option bool;
  hdo_state_writes : nat
}.

Definition hdo_handle_coordinator_update (snapshot : BmrControllerState)
  : Eff BmrControllerHDO unit :=
  modify (fun self =>
    {| hdo_attr_is_on := hdo snapshot;
       hdo_state_writes := S (hdo_state_writes self) |}).

(** [_attr_hvac_modes] as [BmrClimateEntity.__init__] sets it. *)
Definition hvac_modes (c : ClimateConfig) : list HVACMode :=
  if _enable_cooling c then [AUTO; COOL; HEAT; HEAT_COOL; OFF]
  else [AUTO; HEAT; OFF].

(** The low-mode writes [async_set_preset_mode] issues for circuit [i] on the
    controller [b]. *)
Definition low_mode_writes (b : Bmr) (i : Z) (away_temp : Q) (preset_mode : string)
  : list BmrCall :=
  if String.eqb preset_mode CLIMATE_PRESET_AWAY then
    setLowModeAssignments [i] true
    :: (if enabled (dev_low_mode b) then []
        else [setLowMode true (Some away_temp)])
  else
    setLowModeAssignments [i] false
    :: (if py_any (assign [i] false (dev_low_mode_assignments b))
        then [] else [setLowMode false None]).

(** Time of day of a [datetime], in microseconds. *)
Definition time_of_day (dt : datetime) : Z := (dt mod 86400000000)%Z.

(** * Properties *)

(** ** Sample data *)

Definition sample_reading (i : Z) (t : option Q) : CircuitData :=
  {| cd_id := i; cd_name := "F01 Room"; cd_enabled := Some true;
     cd_user_offset := Some 0%Q; cd_max_offset := Some 5%Q;
     cd_warning := Some false; cd_heating := Some false;
     cd_cooling := Some false; cd_low_mode := Some false;
     cd_summer_mode := Some false; cd_temperature := t;
     cd_target_temperature := Some 21%Q |}.

Definition sample_state (i : Z) (t : option Q) : CircuitState :=
  make_circuit_state (sample_reading i t) "Room" unassigned_schedules.

Definition sample_low_mode (on : bool) : LowMode :=
  {| enabled := on; lm_temperature := Some 18%Q; start_date := None |}.

(** A controller with four circuits, circuit [i] measuring [temps i]. *)
Definition sample_bmr (temps : Z -> option Q) : Bmr :=
  {| fault := None; dev_unique_id := "bmr-0001"; dev_hdo := false;
     dev_low_mode := sample_low_mode false;
     dev_low_mode_assignments := [false; false; false; false];
     dev_summer_mode := false;
     dev_summer_mode_assignments := [false; false; false; false];
     dev_circuits := fun i => sample_reading i (temps i);
     dev_circuit_schedules := ∅;
     dev_schedules := ∅ |}.

Definition auth_failure : PyExn := mkExn Exception [AUTH_FAILED].

(** Three configured circuits. *)
Definition sample_coordinator (b : Bmr) (previous : option BmrControllerState)
  : BmrUpdateCoordinator :=
  {| subentries := [ {| circuit_id := "0"; circuit_name := "Hall" |};
                     {| circuit_id := "1"; circuit_name := "Kitchen" |};
                     {| circuit_id := "2"; circuit_name := "Bathroom" |} ];
     url := "http://192.168.1.5";
     data := previous;
     bmr := b |}.

Definition noon : datetime := at_clock 739000 12 0.
Definition before_midnight : datetime := at_clock 739000 23 52.

(** Two polls in a row: all circuits at 21 degrees, then circuit 1 jumps to
    30 degrees while the others move to 21.5. *)
Definition first_poll : outcome BmrControllerState :=
  _async_update_data noon
    (sample_coordinator (sample_bmr (fun _ => Some 21%Q)) None).

Definition first_snapshot : option BmrControllerState :=
  match first_poll with
  | Returns s1 => Some s1
  | Raises _ => None
  end.

Definition second_coordinator : BmrUpdateCoordinator :=
  sample_coordinator
    (sample_bmr (fun i => if (i =? 1)%Z then Some 30%Q else Some (43 # 2)%Q))
    first_snapshot.

Definition second_poll : outcome BmrControllerState :=
  _async_update_data (noon + timedelta_minutes 1)%Z second_coordinator.

Definition second_snapshot : BmrControllerState :=
  match second_poll with
  | Returns s2 => s2
  | Raises _ =>
      {| circuits := ∅; hdo := None; unique_id := None; low_mode := None;
         low_mode_assignments := []; summer_mode := None;
         summer_mode_assignments := [] |}
  end.

Definition new_sensor (cid : string) : BmrCircuitSensor :=
  {| sensor_circuit_id := cid; sensor_circuit_state := None;
     _attr_native_value := None; sensor_state_writes := 0 |}.

Definition with_fault (e : PyExn) (b : Bmr) : Bmr :=
  {| fault := Some e; dev_unique_id := dev_unique_id b; dev_hdo := dev_hdo b;
     dev_low_mode := dev_low_mode b;
     dev_low_mode_assignments := dev_low_mode_assignments b;
     dev_summer_mode := dev_summer_mode b;
     dev_summer_mode_assignments := dev_summer_mode_assignments b;
     dev_circuits := dev_circuits b;
     dev_circuit_schedules := dev_circuit_schedules b;
     dev_schedules := dev_schedules b |}.

Definition sample_snapshot (cs : gmap string CircuitState) (lm : option LowMode)
    (lma : list bool) (sm : option bool) (sma : list bool) : BmrControllerState :=
  {| circuits := cs; hdo := Some false; unique_id := Some "bmr-0001";
     low_mode := lm; low_mode_assignments := lma;
     summer_mode := sm; summer_mode_assignments := sma |}.

Definition sample_conf (cid : string) : ClimateConfig :=
  {| _circuit_id := cid; _circuit_name := "Room";
     _circuit_manual_mode_schedule := 31;
     _circuit_auto_mode_daily_schedules := ["1"; "2"; "3"];
     _circuit_auto_mode_daily_schedules_starting_day := 2;
     _away_temperature := 18%Q; _enable_cooling := false |}.

(** Every configured circuit is flagged in the snapshot's summer-mode
    assignment list. *)
Definition all_summer_assigned (ids : list string) (snapshot : BmrControllerState)
  : Prop :=
  Forall (fun cid => circuit_summer_assigned snapshot cid = Returns true) ids.

(** Summer mode active, circuit 0 assigned to it, circuit 1 not. *)
Definition summer_snapshot : BmrControllerState :=
  sample_snapshot
    (<["1" := sample_state 1 (Some 21%Q)]> {["0" := sample_state 0 (Some 21%Q)]})
    (Some (sample_low_mode true)) [false; false] (Some true) [true; false].

(** The handler after the circuit has been found in the snapshot. *)
Definition after_lookup (snapshot : BmrControllerState) (cs : CircuitState)
  : Eff BmrClimateEntity unit :=
  modify (set_circuit_state (Some cs));;
  modify (set_controller_modes snapshot);;
  _update_preset_mode;;
  _update_hvac_mode;;
  _update_hvac_action;;
  _update_current_temperature;;
  _update_target_temperature;;
  modify async_write_ha_state.

(** Circuit 0 is assigned to summer mode, but the snapshot's summer-mode flag
    is undefined. *)
Definition flagless_snapshot : BmrControllerState :=
  sample_snapshot {["0" := sample_state 0 (Some 21%Q)]}
    (Some (sample_low_mode false)) [false; false] None [true; false].

(** Low mode already enabled with every circuit assigned, as the away switch
    leaves the controller. *)
Definition away_bmr : Bmr :=
  bmr_apply (setLowMode true None)
    (bmr_apply (setLowModeAssignments [0; 1; 2; 3]%Z true)
       (sample_bmr (fun _ => Some 21%Q))).


(** The controller after a sequence of write calls. *)
Definition bmr_apply_all (cs : list BmrCall) (b : Bmr) : Bmr :=
  foldl (fun acc c => bmr_apply c acc) b cs.

Definition is_schedule_write (c : BmrCall) : bool :=
  match c with
  | setCircuitSchedules _ _ _ => true
  | _ => false
  end.

(** The summer-mode writes [async_set_hvac_mode] issues for circuit [i] on the
    controller [b]: the assignment, then the mode flag when the read that
    follows asks for it. *)
Definition summer_writes (b : Bmr) (i : Z) (hvac_mode : HVACMode) : list BmrCall :=
  if decide (hvac_mode = OFF) then
    setSummerModeAssignments [i] true
    :: (if dev_summer_mode b then [] else [setSummerMode true])
  else
    setSummerModeAssignments [i] false
    :: (if py_any (assign [i] false (dev_summer_mode_assignments b))
        then [] else [setSummerMode false]).

(** A climate entity in AUTO mode. *)
Definition auto_climate (cid : string) : BmrClimateEntity :=
  set_attr_hvac_mode (Some AUTO) (new_climate (sample_conf cid)).

(** The verdict of the sanity check on the configured circuit [k]: its own
    reading against its own previous state. *)
Definition circuit_passes (self : BmrUpdateCoordinator) (k : string) : Prop :=
  exists i, int_of_string k = Some i
            /\ sanity_check_circuit_state (dev_circuits (bmr self) i)
                 (previous_circuit_state self k) = true.

Definition first_poll_snapshot : BmrControllerState :=
  match first_poll with
  | Returns s1 => s1
  | Raises _ =>
      {| circuits := ∅; hdo := None; unique_id := None; low_mode := None;
         low_mode_assignments := []; summer_mode := None;
         summer_mode_assignments := [] |}
  end.

(** Summer mode active on a controller that reports two circuits only. *)
Definition short_snapshot : BmrControllerState :=
  sample_snapshot {["5" := sample_state 5 (Some 21%Q)]}
    (Some (sample_low_mode true)) [false; false] (Some true) [true; false].

(** The sample controller after the power switch was turned off, then on,
    with circuits 0 and 1 in the snapshot, and the snapshots polled from it. *)
Definition powered_off_bmr : Bmr :=
  device (run (power_async_turn_off summer_snapshot)
              (sample_bmr (fun _ => Some 21%Q))).2.

Definition powered_on_bmr : Bmr :=
  device (run (power_async_turn_on summer_snapshot) powered_off_bmr).2.

Definition snapshot_of (b : Bmr) : BmrControllerState :=
  match _async_update_data noon (sample_coordinator b None) with
  | Returns s => s
  | Raises _ =>
      {| circuits := ∅; hdo := None; unique_id := None; low_mode := None;
         low_mode_assignments := []; summer_mode := None;
         summer_mode_assignments := [] |}
  end.

(** The sample controller after the away switch was turned on. *)
Definition switched_away_bmr : Bmr :=
  device (run (away_async_turn_on summer_snapshot)
              (sample_bmr (fun _ => Some 21%Q))).2.

Definition new_away_switch : BmrControllerAwayModeSwitch :=
  {| away_attr_is_on := None; _away_temperature_attr := None;
     _away_start_date := None; away_state_writes := 0 |}.



(** The climate entity of circuit 1 after the first sample poll, and a second
    poll, taken after low mode was enabled on the controller, in which the
    reading of circuit 1 has jumped by 9 degrees. *)
Definition climate_after_first_poll : BmrClimateEntity :=
  (climate_handle_coordinator_update first_poll_snapshot
     (new_climate (sample_conf "1"))).2.

Definition away_jump_coordinator : BmrUpdateCoordinator :=
  sample_coordinator
    (bmr_apply (setLowMode true None)
       (sample_bmr (fun i => if (i =? 1)%Z then Some 30%Q else Some (43 # 2)%Q)))
    first_snapshot.

Definition away_jump_snapshot : BmrControllerState :=
  match _async_update_data (noon + timedelta_minutes 1)%Z away_jump_coordinator with
  | Returns s => s
  | Raises _ =>
      {| circuits := ∅; hdo := None; unique_id := None; low_mode := None;
         low_mode_assignments := []; summer_mode := None;
         summer_mode_assignments := [] |}
  end.

(** ** The sanity check *)

Section SanityCheck.
Variables (r : CircuitData) (p : CircuitState) (t pt : Q).
Hypothesis same_id : cd_id r = id p.
Hypothesis new_defined : cd_temperature r = Some t.
Hypothesis old_defined : temperature p = Some pt.

(** With matching identifiers and both temperatures defined, the verdict
    only looks at the signed difference (taken exactly, as everywhere in
    this section). *)
Lemma sanity_check_signed :
  sanity_check_circuit_state r (Some p)
  = negb (Qle_bool MAX_TEMPERATURE_DELTA (t - pt)).
Proof.
  unfold sanity_check_circuit_state, temperature_delta_too_big.
  rewrite same_id, Z.eqb_refl, new_defined, old_defined. simpl.
  destruct (Qle_bool MAX_TEMPERATURE_DELTA (t - pt)); reflexivity.
Qed.

Lemma sanity_check_rejects_rise :
  (MAX_TEMPERATURE_DELTA <= t - pt)%Q ->
  sanity_check_circuit_state r (Some p) = false.
Proof.
  intros H. rewrite sanity_check_signed.
  apply Qle_bool_iff in H. rewrite H. reflexivity.
Qed.

Lemma sanity_check_accepts_small :
  (Qabs (t - pt) < MAX_TEMPERATURE_DELTA)%Q ->
  sanity_check_circuit_state r (Some p) = true.
Proof.
  intros H. rewrite sanity_check_signed.
  destruct (Qle_bool MAX_TEMPERATURE_DELTA (t - pt)) eqn:E; [|reflexivity].
  apply Qle_bool_iff in E.
  exfalso. apply (Qlt_not_le _ _ H).
  eapply Qle_trans; [exact E | apply Qle_Qabs].
Qed.

Lemma sanity_check_accepts_drop :
  (t - pt < MAX_TEMPERATURE_DELTA)%Q ->
  sanity_check_circuit_state r (Some p) = true.
Proof.
  intros H. rewrite sanity_check_signed.
  destruct (Qle_bool MAX_TEMPERATURE_DELTA (t - pt)) eqn:E; [|reflexivity].
  apply Qle_bool_iff in E. exfalso. exact (Qlt_not_le _ _ H E).
Qed.
End SanityCheck.

(** C1: a reading 10 degrees below the previous one has an absolute
    difference of at least 5.0 degrees, and the sanity check nevertheless
    accepts it: only a rise of 5.0 degrees or more is rejected, the check is
    not symmetric in the sign of the change. *)
Example sanity_check_accepts_ten_degree_drop :
  let r := sample_reading 1 (Some 10%Q) in
  let p := sample_state 1 (Some 20%Q) in
  cd_id r = id p
  /\ (MAX_TEMPERATURE_DELTA <= Qabs (10 - 20))%Q
  /\ sanity_check_circuit_state r (Some p) = true
  /\ sanity_check_circuit_state (sample_reading 1 (Some 20%Q))
       (Some (sample_state 1 (Some 10%Q))) = false.
Proof.
  simpl. repeat split; try reflexivity.
  unfold Qle, MAX_TEMPERATURE_DELTA. simpl. lia.
Qed.

(** ** Failures of the poll *)

Lemma fetch_state_fault (self : BmrUpdateCoordinator) (e : PyExn) :
  fault (bmr self) = Some e -> fetch_state self = Raises e.
Proof.
  intros H. unfold fetch_state, getUniqueId, request. rewrite H. reflexivity.
Qed.

Lemma timeout_is_not_ready (now : datetime) (self : BmrUpdateCoordinator) args :
  fault (bmr self) = Some (mkExn TimeoutError args) ->
  raised_class (_async_update_data now self) = Some ConfigEntryNotReady.
Proof.
  intros H. unfold _async_update_data. rewrite (fetch_state_fault _ _ H).
  reflexivity.
Qed.

(** Nothing binds [datetime] in [coordinator.py]: whatever the time, the
    handler of an authentication failure stops at the name lookup. *)
Lemma auth_failure_stops_at_datetime (now : datetime) (self : BmrUpdateCoordinator) :
  fault (bmr self) = Some auth_failure ->
  _async_update_data now self
  = Raises (mkExn NameError ["name 'datetime' is not defined"]).
Proof.
  intros H. unfold _async_update_data. rewrite (fetch_state_fault _ _ H).
  reflexivity.
Qed.

(** What the handler would decide were [datetime] imported: the typed
    authentication error away from midnight, the generic error near it. *)
Lemma handler_with_datetime_bound (target : string) :
  let globals := "datetime" :: coordinator_globals in
  handle_fetch_error globals target noon auth_failure
  = mkExn ConfigEntryAuthFailed [AUTH_FAILED]
  /\ handle_fetch_error globals target before_midnight auth_failure
     = mkExn ConfigEntryError ["Unexpected error"].
Proof. split; reflexivity. Qed.

(** C2: three circuits configured, the device answers every call with the
    authentication failure, local time 12:00.  The poll does not raise the
    typed auth-failed error: it raises [NameError], as does the connection
    probe of [async_setup_entry]; at 23:52 the outcome is the same. *)
Example auth_failure_at_noon_raises_name_error :
  let b := with_fault auth_failure (sample_bmr (fun _ => Some 21%Q)) in
  let self := sample_coordinator b None in
  let name_error := mkExn NameError ["name 'datetime' is not defined"] in
  length (subentries self) = 3%nat
  /\ _async_update_data noon self = Raises name_error
  /\ raised_class (_async_update_data noon self) <> Some ConfigEntryAuthFailed
  /\ async_setup_entry_probe noon (url self) b = Raises name_error
  /\ _async_update_data before_midnight self = Raises name_error.
Proof.
  repeat split; try reflexivity. simpl. discriminate.
Qed.

(** ** Update handlers and circuits missing from the snapshot *)

Lemma climate_handler_missing_circuit
    (snapshot : BmrControllerState) (self : BmrClimateEntity) :
  circuits snapshot !! _circuit_id (conf self) = None ->
  climate_handle_coordinator_update snapshot self
  = (Raises (mkExn KeyError [_circuit_id (conf self)]), self).
Proof.
  intros H. unfold climate_handle_coordinator_update, mbind, eff_bind, gets, lift.
  unfold dict_getitem. rewrite H. reflexivity.
Qed.

Lemma sensor_handler_missing_circuit reading
    (snapshot : BmrControllerState) (self : BmrCircuitSensor) :
  circuits snapshot !! sensor_circuit_id self = None ->
  sensor_handle_coordinator_update reading snapshot self
  = (Raises (mkExn KeyError [sensor_circuit_id self]), self).
Proof.
  intros H. unfold sensor_handle_coordinator_update, mbind, eff_bind, gets, lift.
  unfold dict_getitem. rewrite H. reflexivity.
Qed.

(** C3: the second poll drops circuit 1, whose reading jumped by 9 degrees;
    delivered to the entities of circuit 1, the resulting snapshot makes the
    climate handler and both sensor handlers raise [KeyError] instead of
    completing. *)
Example handlers_raise_key_error_for_dropped_circuit :
  second_poll = Returns second_snapshot
  /\ circuits second_snapshot !! "1" = None
  /\ is_Some (circuits second_snapshot !! "0")
  /\ climate_handle_coordinator_update second_snapshot
       (new_climate (sample_conf "1"))
     = (Raises (mkExn KeyError ["1"]), new_climate (sample_conf "1"))
  /\ temperature_handle_coordinator_update second_snapshot (new_sensor "1")
     = (Raises (mkExn KeyError ["1"]), new_sensor "1")
  /\ target_temperature_handle_coordinator_update second_snapshot (new_sensor "1")
     = (Raises (mkExn KeyError ["1"]), new_sensor "1").
Proof.
  split; [vm_compute; reflexivity|].
  split; [vm_compute; reflexivity|].
  split; [eexists; vm_compute; reflexivity|].
  repeat split; vm_compute; reflexivity.
Qed.

(** ** The power switch *)

Lemma py_all_flags (snapshot : BmrControllerState) ids flags :
  Forall2 (fun cid f => circuit_summer_assigned snapshot cid = Returns f) ids flags ->
  py_all (circuit_summer_assigned snapshot <$> ids)
  = Returns (forallb (fun f => f) flags).
Proof.
  induction 1 as [|cid f ids flags Hf _ IH]; [reflexivity|].
  cbn [fmap list_fmap py_all forallb]. rewrite Hf.
  destruct f; [exact IH | reflexivity].
Qed.

Lemma py_all_true items :
  py_all items = Returns true <-> Forall (fun x => x = Returns true) items.
Proof.
  induction items as [|x items IH]; simpl.
  - split; [constructor | reflexivity].
  - destruct x as [[|]|e].
    + rewrite IH. split; [intros H; constructor; [reflexivity | exact H]|].
      intros H. inversion H; assumption.
    + split; [discriminate | intros H; inversion H; discriminate].
    + split; [discriminate | intros H; inversion H; discriminate].
Qed.

(** The switch is off exactly when summer mode is active and every configured
    circuit is assigned to it. *)
Lemma power_off_iff (ids : list string) (snapshot : BmrControllerState) :
  power_is_on ids snapshot = Returns false
  <-> summer_mode snapshot = Some true /\ all_summer_assigned ids snapshot.
Proof.
  unfold power_is_on, all_summer_assigned.
  destruct (summer_mode snapshot) as [[|]|]; cbn.
  - destruct (py_all _) as [[|]|e] eqn:E; cbn.
    + apply py_all_true in E. rewrite Forall_fmap in E.
      split; [intros _; split; [reflexivity | exact E] | reflexivity].
    + split; [discriminate|]. intros [_ H].
      assert (py_all (circuit_summer_assigned snapshot <$> ids) = Returns true)
        as E' by (apply py_all_true; rewrite Forall_fmap; exact H).
      congruence.
    + split; [discriminate|]. intros [_ H].
      assert (py_all (circuit_summer_assigned snapshot <$> ids) = Returns true)
        as E' by (apply py_all_true; rewrite Forall_fmap; exact H).
      congruence.
  - split; [discriminate | intros [? _]; discriminate].
  - split; [discriminate | intros [? _]; discriminate].
Qed.

(** C4, as the code has it: whenever the assignment flags of the configured
    circuits can be read, the power switch is on iff it is not the case that
    summer mode is active and all configured circuits are assigned to it. *)
Theorem power_on_iff_not_summer_and_all_assigned
    (ids : list string) (snapshot : BmrControllerState) (flags : list bool) :
  Forall2 (fun cid f => circuit_summer_assigned snapshot cid = Returns f) ids flags ->
  power_is_on ids snapshot
  = Returns (negb (truthy_flag (summer_mode snapshot)
                   && forallb (fun f => f) flags)).
Proof.
  intros H. unfold power_is_on.
  destruct (summer_mode snapshot) as [[|]|]; cbn; [|reflexivity..].
  rewrite (py_all_flags _ _ _ H). reflexivity.
Qed.

Lemma power_on_iff_not_summer_and_all_assigned_witness :
  Forall2 (fun cid f => circuit_summer_assigned summer_snapshot cid = Returns f)
          ["0"; "1"] [true; false]
  /\ power_is_on ["0"; "1"] summer_snapshot = Returns true.
Proof.
  assert (H : Forall2
    (fun cid f => circuit_summer_assigned summer_snapshot cid = Returns f)
    ["0"; "1"] [true; false]) by (repeat constructor).
  split; [exact H|].
  exact (power_on_iff_not_summer_and_all_assigned _ _ _ H).
Defined.

(** C4, counterexample to the claim as stated: summer mode is active,
    circuit 1 is not assigned to it, and the switch reports on. *)
Lemma power_on_while_summer_mode_active :
  summer_mode summer_snapshot = Some true
  /\ power_is_on ["0"; "1"] summer_snapshot = Returns true
  /\ ~ (power_is_on ["0"; "1"] summer_snapshot = Returns true
        <-> summer_mode summer_snapshot <> Some true
            /\ ~ all_summer_assigned ["0"; "1"] summer_snapshot).
Proof.
  split; [reflexivity|]. split; [reflexivity|].
  intros [H _]. destruct (H eq_refl) as [Hs _]. apply Hs. reflexivity.
Qed.

(** ** The climate entity's derived attributes *)

(** The steps of the handler that follow [_update_preset_mode] leave
    [_attr_preset_mode] alone, whether they return or raise. *)
Lemma update_hvac_mode_preset (self : BmrClimateEntity) :
  _attr_preset_mode (_update_hvac_mode self).2 = _attr_preset_mode self.
Proof. unfold _update_hvac_mode. destruct (hvac_mode_of self); reflexivity. Qed.

Lemma update_hvac_action_preset (self : BmrClimateEntity) :
  _attr_preset_mode (_update_hvac_action self).2 = _attr_preset_mode self.
Proof. unfold _update_hvac_action. destruct (hvac_action_of self); reflexivity. Qed.

Lemma update_hvac_action_mode (self : BmrClimateEntity) :
  _attr_hvac_mode (_update_hvac_action self).2 = _attr_hvac_mode self.
Proof. unfold _update_hvac_action. destruct (hvac_action_of self); reflexivity. Qed.

Lemma climate_handler_found
    (snapshot : BmrControllerState) (self : BmrClimateEntity) cs :
  circuits snapshot !! _circuit_id (conf self) = Some cs ->
  climate_handle_coordinator_update snapshot self = after_lookup snapshot cs self.
Proof.
  intros H. unfold climate_handle_coordinator_update, after_lookup.
  unfold mbind at 1 2. unfold eff_bind at 1 2. unfold gets, lift, dict_getitem.
  rewrite H. reflexivity.
Qed.

Lemma after_lookup_preset (snapshot : BmrControllerState) cs self :
  _attr_preset_mode (after_lookup snapshot cs self).2
  = preset_mode_of (low_mode snapshot).
Proof.
  unfold after_lookup, mbind, eff_bind, modify, _update_preset_mode.
  set (e1 := set_attr_preset_mode _ _).
  assert (H1 : _attr_preset_mode e1 = preset_mode_of (low_mode snapshot))
    by reflexivity.
  pose proof (update_hvac_mode_preset e1) as H2.
  destruct (_update_hvac_mode e1) as [[[]|x] e2]; cbn in H2 |- *; [|congruence].
  pose proof (update_hvac_action_preset e2) as H3.
  destruct (_update_hvac_action e2) as [[[]|y] e3]; cbn in H3 |- *; congruence.
Qed.

(** C10: once the circuit is found in the snapshot, the preset mode the
    handler assigns is read off the controller-wide low-mode descriptor alone:
    away when its enabled flag is set, none when it is not, undefined when the
    descriptor is missing.  Any other snapshot with the same descriptor, and
    any other entity for any other circuit of it, gets the same preset,
    whatever the per-circuit low-mode assignments are. *)
Theorem preset_mode_from_global_low_mode
    (snapshot : BmrControllerState) (self : BmrClimateEntity) (cs : CircuitState) :
  circuits snapshot !! _circuit_id (conf self) = Some cs ->
  _attr_preset_mode (climate_handle_coordinator_update snapshot self).2
  = match low_mode snapshot with
    | None => None
    | Some descriptor =>
        Some (if enabled descriptor then "away" else "none")
    end
  /\ forall snapshot' self' cs',
       circuits snapshot' !! _circuit_id (conf self') = Some cs' ->
       low_mode snapshot' = low_mode snapshot ->
       _attr_preset_mode (climate_handle_coordinator_update snapshot' self').2
       = _attr_preset_mode (climate_handle_coordinator_update snapshot self).2.
Proof.
  intros H.
  assert (Hp : forall s e c, circuits s !! _circuit_id (conf e) = Some c ->
    _attr_preset_mode (climate_handle_coordinator_update s e).2
    = preset_mode_of (low_mode s)).
  { intros s e c Hc. rewrite (climate_handler_found _ _ _ Hc).
    apply after_lookup_preset. }
  split.
  - rewrite (Hp _ _ _ H). unfold preset_mode_of.
    destruct (low_mode snapshot) as [d|]; [destruct (enabled d)|]; reflexivity.
  - intros s' e' c' Hc' Hlm. rewrite (Hp _ _ _ Hc'), (Hp _ _ _ H), Hlm.
    reflexivity.
Qed.

(** Global low mode is enabled and circuit 1 is not assigned to it: its
    climate entity reports away. *)
Lemma preset_mode_from_global_low_mode_witness :
  low_mode_assignments summer_snapshot !! 1%nat = Some false
  /\ _attr_preset_mode
       (climate_handle_coordinator_update summer_snapshot
          (new_climate (sample_conf "1"))).2 = Some "away".
Proof.
  split; [reflexivity|].
  exact (proj1 (preset_mode_from_global_low_mode summer_snapshot
                  (new_climate (sample_conf "1")) (sample_state 1 (Some 21%Q))
                  eq_refl)).
Defined.

Lemma hvac_action_returns (self : BmrClimateEntity) m m' :
  hvac_mode_of self = Returns m ->
  exists a, hvac_action_of (set_attr_hvac_mode m' self) = Returns a.
Proof.
  unfold hvac_mode_of, hvac_action_of. cbn.
  destruct (_circuit_state self) as [cs|]; [|eauto].
  destruct (_summer_mode self) as [sm|]; [|eauto].
  destruct (_summer_mode_assignments self) as [flags|]; [|eauto].
  change (summer_assigned (set_attr_hvac_mode m' self) flags)
    with (summer_assigned self flags).
  destruct (summer_assigned self flags) as [[|]|e]; cbn; [eauto| |discriminate].
  intros _. destruct (truthy_flag (heating cs)); [eauto|].
  destruct (truthy_flag (cooling cs)); eauto.
Qed.

Lemma after_lookup_hvac_mode (snapshot : BmrControllerState) cs self m :
  hvac_mode_of (set_attr_preset_mode (preset_mode_of (low_mode snapshot))
                  (set_controller_modes snapshot
                     (set_circuit_state (Some cs) self))) = Returns m ->
  exists self', after_lookup snapshot cs self = (Returns tt, self')
                /\ _attr_hvac_mode self' = m.
Proof.
  intros Hm.
  unfold after_lookup, mbind, eff_bind, modify, _update_preset_mode.
  cbn [_low_mode set_controller_modes].
  unfold _update_hvac_mode. rewrite Hm.
  destruct (hvac_action_returns _ _ m Hm) as [a Ha].
  unfold _update_hvac_action. rewrite Ha.
  eexists. split; reflexivity.
Qed.

(** The mode derived from a snapshot whose summer-mode flag is defined. *)
Lemma handler_hvac_mode_defined
    (snapshot : BmrControllerState) (self : BmrClimateEntity) (cs : CircuitState)
    (active flag : bool) :
  circuits snapshot !! _circuit_id (conf self) = Some cs ->
  summer_mode snapshot = Some active ->
  circuit_summer_assigned snapshot (_circuit_id (conf self)) = Returns flag ->
  (flag = false -> is_Some (schedules cs)) ->
  exists self',
    climate_handle_coordinator_update snapshot self = (Returns tt, self')
    /\ _attr_hvac_mode self'
       = Some (if flag then OFF
               else if bool_decide
                         (schedules cs ≫= day_schedules
                          = Some [_circuit_manual_mode_schedule (conf self)])
                    then (if _enable_cooling (conf self) then HEAT_COOL else HEAT)
                    else AUTO).
Proof.
  intros Hcs Hsm Hflag Hsched. rewrite (climate_handler_found _ _ _ Hcs).
  apply after_lookup_hvac_mode.
  unfold hvac_mode_of. cbn. rewrite Hsm.
  unfold circuit_summer_assigned in Hflag. unfold summer_assigned. cbn.
  rewrite Hflag. cbn.
  destruct flag; [reflexivity|].
  destruct (Hsched eq_refl) as [sch Hsch].
  unfold override_schedule_assigned. rewrite Hsch. cbn.
  destruct (bool_decide (day_schedules sch = _)) eqn:E.
  - apply bool_decide_eq_true in E. rewrite bool_decide_eq_true_2 by congruence.
    reflexivity.
  - apply bool_decide_eq_false in E. rewrite bool_decide_eq_false_2 by congruence.
    reflexivity.
Qed.

(** ** The poll and the circuits of the snapshot *)

Section Poll.
Variable self : BmrUpdateCoordinator.

Lemma fetch_circuit_keys acc subentry acc' :
  fetch_circuit self acc subentry = Returns acc' ->
  forall k, is_Some (acc' !! k)
            <-> is_Some (acc !! k) \/ (k = circuit_id subentry /\ circuit_passes self k).
Proof.
  unfold fetch_circuit, py_int, getCircuit, getCircuitSchedules, request, circuit_passes.
  destruct (int_of_string (circuit_id subentry)) as [i|] eqn:Hi; [|discriminate].
  cbn. destruct (fault (bmr self)); [discriminate|]. cbn.
  destruct (sanity_check_circuit_state _ _) eqn:Hcheck; cbn;
    intros [= <-] k.
  - destruct (decide (circuit_id subentry = k)) as [<-|Hne].
    + rewrite lookup_insert_eq. split; [|eauto].
      intros _. right. split; [reflexivity|]. exists i. auto.
    + rewrite lookup_insert_ne by exact Hne. split; [auto|].
      intros [H|[-> _]]; [exact H | contradiction].
  - split; [auto|]. intros [H|[-> [j [Hj Hp]]]]; [exact H|].
    rewrite Hi in Hj. injection Hj as <-. congruence.
Qed.

Lemma fetch_circuits_keys todo : forall acc acc',
  fetch_circuits self todo acc = Returns acc' ->
  forall k, is_Some (acc' !! k)
            <-> is_Some (acc !! k)
                \/ (k ∈ circuit_id <$> todo /\ circuit_passes self k).
Proof.
  induction todo as [|subentry rest IH]; intros acc acc' H k.
  - injection H as <-. split; [auto|]. intros [H|[H _]]; [exact H|].
    inversion H.
  - cbn in H. destruct (fetch_circuit self acc subentry) as [mid|e] eqn:Hmid;
      [|discriminate].
    cbn in H. rewrite (IH _ _ H k), (fetch_circuit_keys _ _ _ Hmid k).
    rewrite fmap_cons, elem_of_cons. tauto.
Qed.

Lemma fetch_state_circuits snapshot :
  fetch_state self = Returns snapshot ->
  fetch_circuits self (subentries self) ∅ = Returns (circuits snapshot)
  /\ summer_mode snapshot = Some (dev_summer_mode (bmr self))
  /\ summer_mode_assignments snapshot = dev_summer_mode_assignments (bmr self)
  /\ low_mode snapshot = Some (dev_low_mode (bmr self))
  /\ low_mode_assignments snapshot = dev_low_mode_assignments (bmr self).
Proof.
  unfold fetch_state, getUniqueId, getHDO, getLowMode, getLowModeAssignments,
    getSummerMode, getSummerModeAssignments, request.
  destruct (fault (bmr self)); [discriminate|]. cbn.
  destruct (fetch_circuits self (subentries self) ∅) as [cs|e]; [|discriminate].
  cbn. intros [= <-]. cbn. auto.
Qed.

Lemma poll_returns_fetch_state now snapshot :
  _async_update_data now self = Returns snapshot ->
  fetch_state self = Returns snapshot.
Proof.
  unfold _async_update_data. destruct (fetch_state self); congruence.
Qed.

(** When the controller answers and the configured identifiers are
    integers, the poll returns a snapshot. *)
Lemma fetch_circuits_returns todo : forall acc,
  fault (bmr self) = None ->
  Forall (fun s => is_Some (int_of_string (circuit_id s))) todo ->
  exists acc', fetch_circuits self todo acc = Returns acc'.
Proof.
  induction todo as [|subentry rest IH]; intros acc Hf Hall; [cbn; eauto|].
  inversion Hall as [|? ? [i Hi] Hrest]; subst.
  cbn. unfold fetch_circuit, py_int, getCircuit, getCircuitSchedules, request.
  rewrite Hi, Hf. cbn.
  destruct (sanity_check_circuit_state _ _); cbn; apply IH; assumption.
Qed.

Lemma poll_returns now :
  fault (bmr self) = None ->
  Forall (fun s => is_Some (int_of_string (circuit_id s))) (subentries self) ->
  exists snapshot, _async_update_data now self = Returns snapshot.
Proof.
  intros Hf Hall. unfold _async_update_data, fetch_state, getUniqueId, getHDO,
    getLowMode, getLowModeAssignments, getSummerMode, getSummerModeAssignments,
    request.
  rewrite Hf. cbn.
  destruct (fetch_circuits_returns _ ∅ Hf Hall) as [cs ->]. cbn. eauto.
Qed.
End Poll.

(** C6: in the snapshot a poll returns, a circuit is present exactly when it
    is configured and its own reading passes the sanity check against its own
    previous state; a circuit whose reading fails is absent, and no other
    circuit's presence depends on that. *)
Theorem poll_keeps_exactly_passing_circuits
    (now : datetime) (self : BmrUpdateCoordinator) (snapshot : BmrControllerState) :
  _async_update_data now self = Returns snapshot ->
  forall k : string,
    is_Some (circuits snapshot !! k)
    <-> k ∈ circuit_id <$> subentries self
        /\ exists i, int_of_string k = Some i
             /\ sanity_check_circuit_state (dev_circuits (bmr self) i)
                  (previous_circuit_state self k) = true.
Proof.
  intros H k. apply poll_returns_fetch_state in H.
  destruct (fetch_state_circuits _ _ H) as [Hcs _].
  rewrite (fetch_circuits_keys _ _ _ _ Hcs k).
  rewrite lookup_empty. split; [intros [[? ?]|?]; [discriminate | assumption] | auto].
Qed.

Lemma poll_keeps_exactly_passing_circuits_witness :
  second_poll = Returns second_snapshot
  /\ (is_Some (circuits second_snapshot !! "1")
      <-> "1" ∈ circuit_id <$> subentries second_coordinator
          /\ exists i, int_of_string "1" = Some i
               /\ sanity_check_circuit_state
                    (dev_circuits (bmr second_coordinator) i)
                    (previous_circuit_state second_coordinator "1") = true).
Proof.
  assert (H : second_poll = Returns second_snapshot) by (vm_compute; reflexivity).
  split; [exact H|].
  exact (poll_keeps_exactly_passing_circuits
           (noon + timedelta_minutes 1)%Z second_coordinator _ H "1").
Defined.

(** ** Writes to the controller *)

Lemma bmr_apply_fault (c : BmrCall) (b : Bmr) : fault (bmr_apply c b) = fault b.
Proof. destruct c; reflexivity. Qed.

Lemma executor_job_ok (c : BmrCall) (h : Hass) :
  fault (device h) = None ->
  executor_job c h
  = (Returns tt,
     {| device := bmr_apply c (device h);
        journal := journal h ++ [c];
        refresh_requests := refresh_requests h |}).
Proof. intros H. unfold executor_job. rewrite H. reflexivity. Qed.

Lemma executor_read_ok {A} (read : Bmr -> A) (h : Hass) :
  fault (device h) = None ->
  executor_read (fun b => request b (read b)) h = (Returns (read (device h)), h).
Proof. intros H. unfold executor_read, request. rewrite H. reflexivity. Qed.

(** Reading an assignment list back after [assign]. *)
Lemma assign_lookup (ids : list Z) (v : bool) : forall (flags : list bool) (n : nat),
  assign ids v flags !! n
  = (fun old => if bool_decide (Z.of_nat n ∈ ids) then v else old) <$> flags !! n.
Proof.
  unfold assign. induction ids as [|i ids IH]; intros flags n.
  - cbn. destruct (flags !! n); reflexivity.
  - cbn [foldl]. rewrite IH. clear IH.
    destruct (Z.leb_spec 0 i) as [Hi|Hi].
    + rewrite list_lookup_insert.
      destruct (decide (Z.to_nat i = n ∧ (Z.to_nat i < length flags)%nat))
        as [[Hn Hlt]|Hno].
      * destruct (lookup_lt_is_Some_2 flags n) as [old Hold]; [lia|].
        rewrite Hold. cbn.
        rewrite (bool_decide_eq_true_2 (Z.of_nat n ∈ i :: ids))
          by (apply elem_of_cons; left; lia).
        destruct (bool_decide (Z.of_nat n ∈ ids)); reflexivity.
      * destruct (flags !! n) as [old|] eqn:Hold; [|reflexivity]. cbn.
        assert (Z.of_nat n <> i).
        { intros <-. apply Hno. rewrite Nat2Z.id. split; [reflexivity|].
          apply lookup_lt_is_Some. eauto. }
        rewrite (bool_decide_ext (Z.of_nat n ∈ i :: ids) (Z.of_nat n ∈ ids));
          [reflexivity|].
        rewrite elem_of_cons. tauto.
    + destruct (flags !! n) as [old|]; [|reflexivity]. cbn.
      rewrite (bool_decide_ext (Z.of_nat n ∈ i :: ids) (Z.of_nat n ∈ ids));
        [reflexivity|].
      rewrite elem_of_cons. split; [|auto]. intros [H|H]; [lia | exact H].
Qed.


Lemma assign_length (ids : list Z) (v : bool) : forall flags : list bool,
  length (assign ids v flags) = length flags.
Proof.
  unfold assign. induction ids as [|i ids IH]; intros flags; [reflexivity|].
  cbn [foldl]. rewrite IH. destruct (0 <=? i)%Z; [apply length_insert | reflexivity].
Qed.

Lemma assign_covers (ids : list Z) (v : bool) (flags : list bool) (i : Z) :
  i ∈ ids -> (0 <= i < Z.of_nat (length flags))%Z ->
  assign ids v flags !! Z.to_nat i = Some v.
Proof.
  intros Hin Hi. rewrite assign_lookup.
  destruct (lookup_lt_is_Some_2 flags (Z.to_nat i)) as [old ->]; [lia|].
  cbn. rewrite Z2Nat.id by lia. rewrite bool_decide_eq_true_2 by exact Hin.
  reflexivity.
Qed.


(** Two writes in a row and the refresh request, on a controller that
    answers. *)
Lemma two_writes_then_refresh (c1 c2 : BmrCall) (h : Hass) :
  fault (device h) = None ->
  (executor_job c1;; executor_job c2;; async_request_refresh) h
  = (Returns tt,
     {| device := bmr_apply c2 (bmr_apply c1 (device h));
        journal := journal h ++ [c1; c2];
        refresh_requests := S (refresh_requests h) |}).
Proof.
  intros H. unfold mbind, eff_bind.
  rewrite (executor_job_ok c1 h H).
  rewrite executor_job_ok by (cbn; rewrite bmr_apply_fault; exact H).
  cbn. rewrite <- app_assoc. reflexivity.
Qed.





(** ** Climate write actions *)

Lemma summer_writes_keep_schedules (b : Bmr) i mode :
  dev_circuit_schedules (bmr_apply_all (summer_writes b i mode) b)
  = dev_circuit_schedules b
  /\ dev_schedules (bmr_apply_all (summer_writes b i mode) b) = dev_schedules b
  /\ fault (bmr_apply_all (summer_writes b i mode) b) = fault b
  /\ filter is_schedule_write (summer_writes b i mode) = [].
Proof.
  unfold summer_writes.
  destruct (decide (mode = OFF)).
  - destruct (dev_summer_mode b); repeat split; reflexivity.
  - destruct (py_any _); repeat split; reflexivity.
Qed.

Lemma summer_mode_part_run (self : BmrClimateEntity) (mode : HVACMode) (h : Hass) i :
  fault (device h) = None ->
  py_int (_circuit_id (conf self)) = Returns i ->
  summer_mode_part self mode h
  = (Returns tt,
     {| device := bmr_apply_all (summer_writes (device h) i mode) (device h);
        journal := journal h ++ summer_writes (device h) i mode;
        refresh_requests := refresh_requests h |}).
Proof.
  intros Hf Hi. unfold summer_mode_part, summer_writes.
  destruct (decide (mode = OFF)) as [_|_].
  - unfold mbind, eff_bind, lift. rewrite Hi.
    rewrite executor_job_ok by exact Hf.
    unfold executor_read, getSummerMode, request. cbn. rewrite Hf.
    destruct (dev_summer_mode (device h)); cbn;
      rewrite <- ?app_assoc; reflexivity.
  - unfold mbind, eff_bind, lift. rewrite Hi.
    rewrite executor_job_ok by exact Hf.
    unfold executor_read, getSummerModeAssignments, request.
    cbn [device bmr_apply fault dev_summer_mode_assignments]. rewrite Hf.
    destruct (py_any (assign [i] false (dev_summer_mode_assignments (device h))));
      cbn [negb bmr_apply_all foldl bmr_apply]; rewrite ?Hf; [reflexivity|].
    unfold executor_job. cbn [device bmr_apply fault journal refresh_requests].
    rewrite <- app_assoc. reflexivity.
Qed.

Lemma async_set_hvac_mode_heat (self : BmrClimateEntity) (mode : HVACMode) (h : Hass) i :
  fault (device h) = None ->
  py_int (_circuit_id (conf self)) = Returns i ->
  mode = HEAT \/ mode = HEAT_COOL ->
  let w := setCircuitSchedules i [_circuit_manual_mode_schedule (conf self)] None in
  async_set_hvac_mode self mode h
  = (Returns tt,
     {| device :=
          bmr_apply w (bmr_apply_all (summer_writes (device h) i mode) (device h));
        journal := journal h ++ summer_writes (device h) i mode ++ [w];
        refresh_requests := S (refresh_requests h) |}).
Proof.
  intros Hf Hi Hmode w. unfold async_set_hvac_mode.
  unfold mbind at 1. unfold eff_bind at 1.
  rewrite (summer_mode_part_run _ _ _ _ Hf Hi).
  unfold mbind at 1. unfold eff_bind at 1.
  unfold schedule_part. rewrite decide_True by exact Hmode.
  unfold mbind, eff_bind, lift. rewrite Hi.
  rewrite executor_job_ok
    by (cbn; rewrite (proj1 (proj2 (proj2 (summer_writes_keep_schedules _ _ _))));
        exact Hf).
  cbn. rewrite <- app_assoc. reflexivity.
Qed.

Lemma async_set_hvac_mode_rotation
    (self : BmrClimateEntity) (mode : HVACMode) (h : Hass) i rotation :
  fault (device h) = None ->
  py_int (_circuit_id (conf self)) = Returns i ->
  py_ints (_circuit_auto_mode_daily_schedules (conf self)) = Returns rotation ->
  mode <> HEAT -> mode <> HEAT_COOL ->
  let w := setCircuitSchedules i rotation
             (Some (_circuit_auto_mode_daily_schedules_starting_day (conf self))) in
  async_set_hvac_mode self mode h
  = (Returns tt,
     {| device :=
          bmr_apply w (bmr_apply_all (summer_writes (device h) i mode) (device h));
        journal := journal h ++ summer_writes (device h) i mode ++ [w];
        refresh_requests := S (refresh_requests h) |}).
Proof.
  intros Hf Hi Hrot Hm1 Hm2 w. unfold async_set_hvac_mode.
  unfold mbind at 1. unfold eff_bind at 1.
  rewrite (summer_mode_part_run _ _ _ _ Hf Hi).
  unfold mbind at 1. unfold eff_bind at 1.
  unfold schedule_part. rewrite decide_False by tauto.
  unfold mbind, eff_bind, lift. rewrite Hi, Hrot.
  rewrite executor_job_ok
    by (cbn; rewrite (proj1 (proj2 (proj2 (summer_writes_keep_schedules _ _ _))));
        exact Hf).
  cbn. rewrite <- app_assoc. reflexivity.
Qed.

(** C8: on a controller that answers, setting the mode to OFF and then to AUTO
    returns, both calls write the configured rotation with the configured
    starting day as the circuit's schedule assignment, that write is the last
    one to reach the controller, and the controller then reports the rotation
    as the circuit's schedules. *)
Theorem off_then_auto_restores_rotation
    (self : BmrClimateEntity) (b : Bmr) (i : Z) (rotation : list Z) :
  fault b = None ->
  py_int (_circuit_id (conf self)) = Returns i ->
  py_ints (_circuit_auto_mode_daily_schedules (conf self)) = Returns rotation ->
  let first_day := _circuit_auto_mode_daily_schedules_starting_day (conf self) in
  let w := setCircuitSchedules i rotation (Some first_day) in
  let r := run (async_set_hvac_mode self OFF;; async_set_hvac_mode self AUTO) b in
  r.1 = Returns tt
  /\ filter is_schedule_write (journal r.2) = [w; w]
  /\ last (journal r.2) = Some w
  /\ getCircuitSchedules (device r.2) i
     = Returns {| day_schedules := Some rotation; starting_day := Some first_day |}.
Proof.
  intros Hf Hi Hrot first_day w r.
  set (b1 := bmr_apply w (bmr_apply_all (summer_writes b i OFF) b)).
  assert (Hf1 : fault b1 = None).
  { subst b1. rewrite bmr_apply_fault.
    rewrite (proj1 (proj2 (proj2 (summer_writes_keep_schedules _ _ _)))).
    exact Hf. }
  assert (Hr : r = (Returns tt,
    {| device := bmr_apply w (bmr_apply_all (summer_writes b1 i AUTO) b1);
       journal := ([] ++ summer_writes b i OFF ++ [w])
                  ++ summer_writes b1 i AUTO ++ [w];
       refresh_requests := 2 |})).
  { subst r. unfold run. unfold mbind at 1. unfold eff_bind at 1.
    rewrite (async_set_hvac_mode_rotation self OFF _ i rotation)
      by (try assumption; discriminate).
    cbn [device journal refresh_requests]. fold first_day. fold w. fold b1.
    rewrite (async_set_hvac_mode_rotation self AUTO _ i rotation)
      by (try assumption; discriminate).
    reflexivity. }
  rewrite Hr. clear Hr r. cbn [fst snd device journal].
  destruct (summer_writes_keep_schedules b i OFF) as (_ & _ & _ & Hs0).
  destruct (summer_writes_keep_schedules b1 i AUTO) as (_ & _ & Hf2 & Hs1).
  split; [reflexivity|]. split; [|split].
  - cbn [app]. rewrite !filter_app, Hs0, Hs1. reflexivity.
  - rewrite !app_assoc. apply last_snoc.
  - unfold getCircuitSchedules, request.
    rewrite bmr_apply_fault, Hf2, Hf1.
    subst w. cbn [bmr_apply dev_circuit_schedules].
    rewrite lookup_insert_eq. reflexivity.
Qed.

Lemma off_then_auto_restores_rotation_witness :
  fault (sample_bmr (fun _ => Some 21%Q)) = None
  /\ last (journal
             (run (async_set_hvac_mode (new_climate (sample_conf "1")) OFF;;
                   async_set_hvac_mode (new_climate (sample_conf "1")) AUTO)
                  (sample_bmr (fun _ => Some 21%Q))).2)
     = Some (setCircuitSchedules 1 [1; 2; 3]%Z (Some 2%Z)).
Proof.
  split; [reflexivity|].
  exact (proj1 (proj2 (proj2
    (off_then_auto_restores_rotation (new_climate (sample_conf "1"))
       (sample_bmr (fun _ => Some 21%Q)) 1 [1; 2; 3]%Z
       eq_refl eq_refl eq_refl)))).
Defined.

(** ** Setting a target temperature *)

Lemma py_int_returns (s : string) (i : Z) :
  py_int s = Returns i <-> int_of_string s = Some i.
Proof.
  unfold py_int. destruct (int_of_string s); split; congruence.
Qed.

Lemma py_getitem_in_range {A} (l : list A) (i : Z) (x : A) :
  (0 <= i < Z.of_nat (length l))%Z ->
  l !! Z.to_nat i = Some x ->
  py_getitem l i = Returns x.
Proof.
  intros Hi Hx. unfold py_getitem.
  destruct (Z.ltb_spec i 0); [lia|].
  destruct (Z.leb_spec 0 i); [|lia].
  destruct (Z.ltb_spec i (Z.of_nat (length l))); [|lia].
  cbn. rewrite Hx. reflexivity.
Qed.

Lemma summer_writes_assignments (b : Bmr) (i : Z) (mode : HVACMode) :
  dev_summer_mode_assignments (bmr_apply_all (summer_writes b i mode) b)
  = assign [i] (bool_decide (mode = OFF)) (dev_summer_mode_assignments b).
Proof.
  unfold summer_writes. destruct (decide (mode = OFF)) as [H|H].
  - rewrite bool_decide_eq_true_2 by exact H.
    destruct (dev_summer_mode b); reflexivity.
  - rewrite bool_decide_eq_false_2 by exact H.
    destruct (py_any _); reflexivity.
Qed.

(** Every circuit state of a snapshot carries the schedules the controller
    reports for that circuit. *)
Lemma fetch_circuits_schedules (self : BmrUpdateCoordinator) todo :
  forall acc acc',
    fetch_circuits self todo acc = Returns acc' ->
    (forall k cs, acc !! k = Some cs ->
       exists i, int_of_string k = Some i
         /\ getCircuitSchedules (bmr self) i
            = Returns (default unassigned_schedules (schedules cs))
         /\ is_Some (schedules cs)) ->
    forall k cs, acc' !! k = Some cs ->
      exists i, int_of_string k = Some i
        /\ getCircuitSchedules (bmr self) i
           = Returns (default unassigned_schedules (schedules cs))
        /\ is_Some (schedules cs).
Proof.
  induction todo as [|subentry rest IH]; intros acc acc' H Hacc.
  - injection H as <-. exact Hacc.
  - cbn in H.
    destruct (fetch_circuit self acc subentry) as [mid|e] eqn:Hmid; [|discriminate].
    cbn in H. apply (IH _ _ H). clear IH H.
    unfold fetch_circuit, py_int in Hmid.
    destruct (int_of_string (circuit_id subentry)) as [i|] eqn:Hi; [|discriminate].
    cbn in Hmid.
    destruct (getCircuit (bmr self) i) as [cd|]; [|discriminate]. cbn in Hmid.
    destruct (getCircuitSchedules (bmr self) i) as [sch|] eqn:Hsch; [|discriminate].
    cbn in Hmid.
    destruct (sanity_check_circuit_state _ _); injection Hmid as <-; [|exact Hacc].
    intros k cs. destruct (decide (circuit_id subentry = k)) as [<-|Hne].
    + rewrite lookup_insert_eq. intros [= <-]. exists i. cbn. eauto.
    + rewrite lookup_insert_ne by exact Hne. apply Hacc.
Qed.

Lemma poll_circuit_schedules now (self : BmrUpdateCoordinator) snapshot k cs :
  _async_update_data now self = Returns snapshot ->
  circuits snapshot !! k = Some cs ->
  exists i, int_of_string k = Some i
    /\ getCircuitSchedules (bmr self) i
       = Returns (default unassigned_schedules (schedules cs))
    /\ is_Some (schedules cs).
Proof.
  intros H Hk. apply poll_returns_fetch_state in H.
  destruct (fetch_state_circuits _ _ H) as [Hcs _].
  apply (fetch_circuits_schedules _ _ _ _ Hcs); [|exact Hk].
  intros k' cs'. rewrite lookup_empty. discriminate.
Qed.

(** The run of [async_set_temperature] from a mode that is not a heat mode. *)
Lemma async_set_temperature_run (self : BmrClimateEntity) (b : Bmr) temp i :
  fault b = None ->
  _attr_hvac_mode self <> Some HEAT ->
  _attr_hvac_mode self <> Some HEAT_COOL ->
  py_int (_circuit_id (conf self)) = Returns i ->
  let manual := _circuit_manual_mode_schedule (conf self) in
  let body := setSchedule manual (_circuit_name (conf self) ++ " override")
                [("00:00", temp)] in
  let mode := if _enable_cooling (conf self) then HEAT_COOL else HEAT in
  let b0 := bmr_apply body b in
  let w := setCircuitSchedules i [manual] None in
  run (async_set_temperature self temp) b
  = (Returns tt,
     {| device := bmr_apply w (bmr_apply_all (summer_writes b0 i mode) b0);
        journal := [body] ++ summer_writes b0 i mode ++ [w];
        refresh_requests := 2 |}).
Proof.
  intros Hf Hm1 Hm2 Hi manual body mode b0 w.
  unfold run, async_set_temperature.
  unfold mbind at 1. unfold eff_bind at 1.
  rewrite executor_job_ok by exact Hf.
  cbn [device journal refresh_requests app]. fold manual. fold body. fold b0.
  rewrite bool_decide_eq_false_2 by tauto.
  unfold mbind at 1. unfold eff_bind at 1.
  assert (Hf0 : fault b0 = None) by (subst b0; rewrite bmr_apply_fault; exact Hf).
  assert (Hrun : async_set_hvac_mode self mode
                   {| device := b0; journal := [body]; refresh_requests := 0 |}
    = (Returns tt,
       {| device := bmr_apply w (bmr_apply_all (summer_writes b0 i mode) b0);
          journal := [body] ++ summer_writes b0 i mode ++ [w];
          refresh_requests := 1 |})).
  { apply (async_set_hvac_mode_heat self mode
             {| device := b0; journal := [body]; refresh_requests := 0 |} i);
      [exact Hf0 | exact Hi |].
    subst mode. destruct (_enable_cooling (conf self)); auto. }
  subst mode. destruct (_enable_cooling (conf self)); rewrite Hrun; reflexivity.
Qed.

(** C9: on a controller that answers and lists the circuit in its summer-mode
    assignments, setting a target temperature from AUTO mode returns, leaves
    the sentinel schedule with the single entry holding the requested
    temperature, assigns the sentinel schedule alone to the circuit, and every
    later snapshot polled from that controller that contains the circuit makes
    the climate handler derive HEAT (HEAT_COOL with cooling enabled). *)
Theorem set_temperature_in_auto_switches_to_heat
    (self : BmrClimateEntity) (b : Bmr) (temp : option Q) (i : Z) :
  fault b = None ->
  _attr_hvac_mode self = Some AUTO ->
  py_int (_circuit_id (conf self)) = Returns i ->
  (0 <= i < Z.of_nat (length (dev_summer_mode_assignments b)))%Z ->
  let manual := _circuit_manual_mode_schedule (conf self) in
  let heat := if _enable_cooling (conf self) then HEAT_COOL else HEAT in
  let r := run (async_set_temperature self temp) b in
  r.1 = Returns tt
  /\ dev_schedules (device r.2) !! manual
     = Some {| sched_name := _circuit_name (conf self) ++ " override";
               timetable := [("00:00", temp)] |}
  /\ getCircuitSchedules (device r.2) i
     = Returns {| day_schedules := Some [manual]; starting_day := Some 1%Z |}
  /\ forall now coordinator snapshot entity,
       bmr coordinator = device r.2 ->
       _async_update_data now coordinator = Returns snapshot ->
       conf entity = conf self ->
       is_Some (circuits snapshot !! _circuit_id (conf self)) ->
       exists entity',
         climate_handle_coordinator_update snapshot entity = (Returns tt, entity')
         /\ _attr_hvac_mode entity' = Some heat.
Proof.
  intros Hf Hauto Hi Hrange manual heat r.
  assert (Hr := async_set_temperature_run self b temp i Hf
                  ltac:(rewrite Hauto; discriminate)
                  ltac:(rewrite Hauto; discriminate) Hi).
  cbn zeta in Hr. fold manual in Hr. fold heat in Hr. fold r in Hr.
  set (body := setSchedule manual (_circuit_name (conf self) ++ " override")
                 [("00:00", temp)]) in *.
  set (b0 := bmr_apply body b) in *.
  set (w := setCircuitSchedules i [manual] None) in *.
  rewrite Hr. clear Hr r. cbn [fst snd device].
  destruct (summer_writes_keep_schedules b0 i heat) as (Hcs & Hsch & Hf1 & _).
  assert (Hf0 : fault b0 = None) by (subst b0; rewrite bmr_apply_fault; exact Hf).
  assert (Hget : getCircuitSchedules
                   (bmr_apply w (bmr_apply_all (summer_writes b0 i heat) b0)) i
                 = Returns {| day_schedules := Some [manual];
                              starting_day := Some 1%Z |}).
  { unfold getCircuitSchedules, request.
    rewrite bmr_apply_fault, Hf1, Hf0. subst w.
    cbn [bmr_apply dev_circuit_schedules]. rewrite lookup_insert_eq. reflexivity. }
  split; [reflexivity|]. split; [|split; [exact Hget|]].
  - subst w. cbn [bmr_apply dev_schedules]. rewrite Hsch. subst b0 body.
    cbn [bmr_apply dev_schedules]. apply lookup_insert_eq.
  - intros now coordinator snapshot entity Hbmr Hpoll Hconf [cs Hcs'].
    destruct (fetch_state_circuits _ _ (poll_returns_fetch_state _ _ _ Hpoll))
      as (_ & Hsm & Hsma & _).
    destruct (poll_circuit_schedules _ _ _ _ _ Hpoll Hcs')
      as (j & Hj & Hread & Hsome).
    apply py_int_returns in Hi. rewrite Hi in Hj. injection Hj as <-.
    rewrite Hbmr, Hget in Hread. injection Hread as Hread.
    destruct Hsome as [sch Hsch']. rewrite Hsch' in Hread. cbn in Hread.
    subst sch.
    assert (Hflag : circuit_summer_assigned snapshot (_circuit_id (conf entity))
                    = Returns false).
    { unfold circuit_summer_assigned. rewrite Hconf.
      rewrite (proj2 (py_int_returns _ _) Hi). cbn.
      rewrite Hsma, Hbmr. subst w. cbn [bmr_apply dev_summer_mode_assignments].
      rewrite summer_writes_assignments.
      rewrite bool_decide_eq_false_2
        by (subst heat; destruct (_enable_cooling (conf self)); discriminate).
      subst b0 body. cbn [bmr_apply dev_summer_mode_assignments].
      apply py_getitem_in_range; [rewrite assign_length; exact Hrange|].
      apply assign_covers; [apply list_elem_of_singleton; reflexivity | exact Hrange]. }
    rewrite <- Hconf in Hcs'.
    destruct (handler_hvac_mode_defined snapshot entity cs _ false Hcs' Hsm Hflag)
      as (entity' & Hrun & Hmode).
    { intros _. rewrite Hsch'. eauto. }
    exists entity'. split; [exact Hrun|].
    rewrite Hmode, Hsch', Hconf. cbn. fold manual.
    rewrite bool_decide_eq_true_2 by reflexivity. reflexivity.
Qed.

Lemma set_temperature_in_auto_switches_to_heat_witness :
  _attr_hvac_mode (auto_climate "1") = Some AUTO
  /\ dev_schedules
       (device (run (async_set_temperature (auto_climate "1") (Some 22%Q))
                    (sample_bmr (fun _ => Some 21%Q))).2) !! 31%Z
     = Some {| sched_name := "Room override";
               timetable := [("00:00", Some 22%Q)] |}.
Proof.
  split; [reflexivity|].
  assert (Hrange : (0 <= 1 < Z.of_nat (length (dev_summer_mode_assignments
                                         (sample_bmr (fun _ => Some 21%Q)))))%Z)
    by (simpl; lia).
  exact (proj1 (proj2
    (set_temperature_in_auto_switches_to_heat (auto_climate "1")
       (sample_bmr (fun _ => Some 21%Q)) (Some 22%Q) 1
       eq_refl eq_refl eq_refl Hrange))).
Defined.

(** * Further properties of the coordinator *)

Lemma sanity_check_rejects_cases (r : CircuitData) (p : CircuitState) :
  sanity_check_circuit_state r (Some p) = false
  <-> cd_id r <> id p
      \/ cd_temperature r = None
      \/ exists t pt, cd_temperature r = Some t /\ temperature p = Some pt
                      /\ (MAX_TEMPERATURE_DELTA <= t - pt)%Q.
Proof.
  unfold sanity_check_circuit_state, temperature_delta_too_big.
  destruct (Z.eqb_spec (cd_id r) (id p)) as [Hid|Hid]; cbn.
  - destruct (cd_temperature r) as [t|].
    + destruct (temperature p) as [pt|]; cbn.
      * destruct (Qle_bool MAX_TEMPERATURE_DELTA (t - pt)) eqn:E; cbn.
        -- split; [|reflexivity]. intros _. right. right. exists t, pt.
           apply Qle_bool_iff in E. auto.
        -- split; [discriminate|].
           intros [H|[H|(t' & pt' & [= <-] & [= <-] & H)]];
             [contradiction | discriminate |].
           apply Qle_bool_iff in H. congruence.
      * split; [discriminate|].
        intros [H|[H|(t' & pt' & _ & H & _)]];
          [contradiction | discriminate | discriminate].
    + split; [auto | reflexivity].
  - split; [auto | reflexivity].
Qed.

(** X1: against a previous state, a reading is rejected whenever the
    identifiers differ, or the new temperature is undefined, or the new
    temperature is at least 5.0 degrees above the previous one; with matching
    identifiers and a defined new temperature it is accepted whenever the
    previous temperature is undefined or the new temperature does not exceed
    the previous one, however large the drop. *)
Theorem sanity_check_decided_cases (r : CircuitData) (p : CircuitState) :
  (cd_id r <> id p -> sanity_check_circuit_state r (Some p) = false)
  /\ (cd_temperature r = None -> sanity_check_circuit_state r (Some p) = false)
  /\ (forall t pt,
        cd_temperature r = Some t -> temperature p = Some pt ->
        (MAX_TEMPERATURE_DELTA <= t - pt)%Q ->
        sanity_check_circuit_state r (Some p) = false)
  /\ (forall t,
        cd_id r = id p -> cd_temperature r = Some t -> temperature p = None ->
        sanity_check_circuit_state r (Some p) = true)
  /\ (forall t pt,
        cd_id r = id p -> cd_temperature r = Some t -> temperature p = Some pt ->
        (t <= pt)%Q ->
        sanity_check_circuit_state r (Some p) = true).
Proof.
  split; [|split; [|split; [|split]]].
  - intros H. apply sanity_check_rejects_cases. auto.
  - intros H. apply sanity_check_rejects_cases. auto.
  - intros t pt Ht Hpt Hle. apply sanity_check_rejects_cases.
    right. right. exists t, pt. auto.
  - intros t Hid Ht Hpt.
    destruct (sanity_check_circuit_state r (Some p)) eqn:E; [reflexivity|].
    apply sanity_check_rejects_cases in E.
    destruct E as [E|[E|(t' & pt' & _ & E & _)]];
      [contradiction | congruence | congruence].
  - intros t pt Hid Ht Hpt Hle.
    destruct (sanity_check_circuit_state r (Some p)) eqn:E; [reflexivity|].
    apply sanity_check_rejects_cases in E.
    destruct E as [E|[E|(t' & pt' & Ht' & Hpt' & E)]];
      [contradiction | congruence |].
    rewrite Ht in Ht'. rewrite Hpt in Hpt'.
    injection Ht' as <-. injection Hpt' as <-.
    exfalso. apply (Qle_not_lt _ _ E).
    apply Qle_lt_trans with (y := 0%Q).
    + apply (Qplus_le_l _ _ pt). ring_simplify. exact Hle.
    + reflexivity.
Qed.

(** What a returned poll stored under each key: the reading of the circuit
    the key names, labelled by a subentry of that key, with the schedules the
    controller reports, and accepted by the sanity check. *)
Lemma fetch_circuits_content (self : BmrUpdateCoordinator) todo : forall acc acc',
  fetch_circuits self todo acc = Returns acc' ->
  forall k cs, acc' !! k = Some cs ->
    acc !! k = Some cs
    \/ exists i subentry,
         subentry ∈ todo /\ circuit_id subentry = k
         /\ int_of_string k = Some i
         /\ cs = make_circuit_state (dev_circuits (bmr self) i)
                   (circuit_name subentry)
                   (default unassigned_schedules
                      (dev_circuit_schedules (bmr self) !! i))
         /\ sanity_check_circuit_state (dev_circuits (bmr self) i)
              (previous_circuit_state self k) = true.
Proof.
  induction todo as [|subentry rest IH]; intros acc acc' H k cs Hk.
  - injection H as <-. auto.
  - cbn in H.
    destruct (fetch_circuit self acc subentry) as [mid|e] eqn:Hmid; [|discriminate].
    cbn in H. destruct (IH _ _ H k cs Hk) as [Hin|(i & s & Hs & Hrest)].
    + unfold fetch_circuit, py_int, getCircuit, getCircuitSchedules, request in Hmid.
      destruct (int_of_string (circuit_id subentry)) as [i|] eqn:Hi; [|discriminate].
      cbn in Hmid. destruct (fault (bmr self)); [discriminate|]. cbn in Hmid.
      destruct (sanity_check_circuit_state _ _) eqn:Hcheck;
        injection Hmid as <-; [|auto].
      destruct (decide (circuit_id subentry = k)) as [<-|Hne].
      * rewrite lookup_insert_eq in Hin. injection Hin as <-.
        right. exists i, subentry. split; [left|]. auto.
      * rewrite lookup_insert_ne in Hin by exact Hne. auto.
    + right. exists i, s. split; [right; exact Hs | exact Hrest].
Qed.

(** X2: a returned poll stores, under each key of the snapshot, the state
    built from the controller's reading of the circuit that key names, the
    schedules the controller reports for it, and the name of a configured
    subentry with that identifier. *)
Theorem poll_stores_device_reading
    (now : datetime) (self : BmrUpdateCoordinator) (snapshot : BmrControllerState)
    (k : string) (cs : CircuitState) :
  _async_update_data now self = Returns snapshot ->
  circuits snapshot !! k = Some cs ->
  exists i subentry,
    subentry ∈ subentries self /\ circuit_id subentry = k
    /\ int_of_string k = Some i
    /\ cs = make_circuit_state (dev_circuits (bmr self) i)
              (circuit_name subentry)
              (default unassigned_schedules
                 (dev_circuit_schedules (bmr self) !! i)).
Proof.
  intros H Hk. apply poll_returns_fetch_state in H.
  destruct (fetch_state_circuits _ _ H) as [Hcs _].
  destruct (fetch_circuits_content _ _ _ _ Hcs k cs Hk)
    as [Hempty|(i & s & Hs & Hid & Hi & Hstate & _)].
  - rewrite lookup_empty in Hempty. discriminate.
  - exists i, s. auto.
Qed.

Lemma poll_stores_device_reading_witness :
  exists i subentry,
    subentry ∈ subentries second_coordinator /\ circuit_id subentry = "0"
    /\ int_of_string "0" = Some i
    /\ make_circuit_state (sample_reading 0 (Some (43 # 2)%Q)) "Hall"
         unassigned_schedules
       = make_circuit_state (dev_circuits (bmr second_coordinator) i)
           (circuit_name subentry)
           (default unassigned_schedules
              (dev_circuit_schedules (bmr second_coordinator) !! i)).
Proof.
  assert (H : second_poll = Returns second_snapshot) by (vm_compute; reflexivity).
  assert (Hk : circuits second_snapshot !! "0"
               = Some (make_circuit_state (sample_reading 0 (Some (43 # 2)%Q))
                         "Hall" unassigned_schedules))
    by (vm_compute; reflexivity).
  exact (poll_stores_device_reading (noon + timedelta_minutes 1)%Z
           second_coordinator _ "0" _ H Hk).
Defined.

(** X3: on the first poll (no previous snapshot) nothing is dropped: the keys
    of the returned snapshot are exactly the configured circuit
    identifiers. *)
Theorem first_poll_keeps_every_circuit
    (now : datetime) (self : BmrUpdateCoordinator) (snapshot : BmrControllerState) :
  data self = None ->
  _async_update_data now self = Returns snapshot ->
  forall k : string,
    is_Some (circuits snapshot !! k) <-> k ∈ circuit_id <$> subentries self.
Proof.
  intros Hdata H k. apply poll_returns_fetch_state in H.
  destruct (fetch_state_circuits _ _ H) as [Hcs _].
  rewrite (fetch_circuits_keys _ _ _ _ Hcs k), lookup_empty.
  split.
  - intros [[? ?]|[Hin _]]; [discriminate | exact Hin].
  - intros Hin. right. split; [exact Hin|].
    unfold circuit_passes, previous_circuit_state. rewrite Hdata.
    clear Hcs. unfold fetch_state in H.
    destruct (getUniqueId (bmr self)); [|discriminate]. cbn in H.
    destruct (getHDO (bmr self)); [|discriminate]. cbn in H.
    destruct (getLowMode (bmr self)); [|discriminate]. cbn in H.
    destruct (getLowModeAssignments (bmr self)); [|discriminate]. cbn in H.
    destruct (getSummerMode (bmr self)); [|discriminate]. cbn in H.
    destruct (getSummerModeAssignments (bmr self)); [|discriminate]. cbn in H.
    destruct (fetch_circuits self (subentries self) ∅) as [cs|] eqn:Hcs;
      [|discriminate].
    clear H. revert Hin Hcs. generalize (∅ : gmap string CircuitState).
    generalize cs. clear cs.
    induction (subentries self) as [|subentry rest IH]; intros cs acc Hin Hcs.
    + inversion Hin.
    + cbn in Hcs.
      destruct (fetch_circuit self acc subentry) as [mid|] eqn:Hmid; [|discriminate].
      cbn in Hcs. rewrite fmap_cons in Hin. apply elem_of_cons in Hin.
      destruct Hin as [->|Hin]; [|exact (IH _ _ Hin Hcs)].
      unfold fetch_circuit, py_int in Hmid.
      destruct (int_of_string (circuit_id subentry)) as [i|]; [|discriminate].
      exists i. split; reflexivity.
Qed.

Lemma first_poll_keeps_every_circuit_witness :
  first_poll = Returns first_poll_snapshot
  /\ (is_Some (circuits first_poll_snapshot !! "2")
      <-> "2" ∈ circuit_id <$> subentries
                  (sample_coordinator (sample_bmr (fun _ => Some 21%Q)) None)).
Proof.
  assert (H : first_poll = Returns first_poll_snapshot)
    by (vm_compute; reflexivity).
  split; [exact H|].
  exact (first_poll_keeps_every_circuit noon
           (sample_coordinator (sample_bmr (fun _ => Some 21%Q)) None)
           first_poll_snapshot eq_refl H "2").
Defined.

(** X4: when the previous snapshot holds the circuit, the state a returned
    poll stores for it has the previous identifier and a defined temperature,
    which is less than 5.0 degrees above the previous temperature when that
    one is defined. *)
Theorem poll_against_previous
    (now : datetime) (self : BmrUpdateCoordinator)
    (previous snapshot : BmrControllerState) (k : string) (old new : CircuitState) :
  data self = Some previous ->
  _async_update_data now self = Returns snapshot ->
  circuits previous !! k = Some old ->
  circuits snapshot !! k = Some new ->
  id new = id old
  /\ exists t, temperature new = Some t
       /\ forall pt, temperature old = Some pt ->
                     (t - pt < MAX_TEMPERATURE_DELTA)%Q.
Proof.
  intros Hdata H Hold Hnew. apply poll_returns_fetch_state in H.
  destruct (fetch_state_circuits _ _ H) as [Hcs _].
  destruct (fetch_circuits_content _ _ _ _ Hcs k new Hnew)
    as [Hempty|(i & s & _ & _ & _ & -> & Hcheck)].
  { rewrite lookup_empty in Hempty. discriminate. }
  unfold previous_circuit_state in Hcheck. rewrite Hdata, Hold in Hcheck.
  cbn [make_circuit_state id temperature].
  destruct (sanity_check_circuit_state (dev_circuits (bmr self) i) (Some old))
    eqn:Hc; [|discriminate].
  assert (Hno : ~ (sanity_check_circuit_state (dev_circuits (bmr self) i)
                     (Some old) = false)) by congruence.
  rewrite sanity_check_rejects_cases in Hno.
  split.
  - destruct (decide (cd_id (dev_circuits (bmr self) i) = id old)); [assumption|].
    exfalso. apply Hno. auto.
  - destruct (cd_temperature (dev_circuits (bmr self) i)) as [t|] eqn:Ht.
    + exists t. split; [reflexivity|]. intros pt Hpt.
      apply Qnot_le_lt. intros Hle. apply Hno. right. right. exists t, pt. auto.
    + exfalso. apply Hno. auto.
Qed.

Lemma poll_against_previous_witness :
  id (make_circuit_state (sample_reading 0 (Some (43 # 2)%Q)) "Hall"
        unassigned_schedules)
  = id (make_circuit_state (sample_reading 0 (Some 21%Q)) "Hall"
          unassigned_schedules)
  /\ exists t,
       temperature (make_circuit_state (sample_reading 0 (Some (43 # 2)%Q))
                      "Hall" unassigned_schedules) = Some t
       /\ forall pt,
            temperature (make_circuit_state (sample_reading 0 (Some 21%Q))
                           "Hall" unassigned_schedules) = Some pt ->
            (t - pt < MAX_TEMPERATURE_DELTA)%Q.
Proof.
  assert (H1 : first_poll = Returns first_poll_snapshot)
    by (vm_compute; reflexivity).
  assert (Hdata : data second_coordinator = Some first_poll_snapshot)
    by (vm_compute; reflexivity).
  assert (H2 : second_poll = Returns second_snapshot) by (vm_compute; reflexivity).
  assert (Hold : circuits first_poll_snapshot !! "0"
                 = Some (make_circuit_state (sample_reading 0 (Some 21%Q)) "Hall"
                           unassigned_schedules)) by (vm_compute; reflexivity).
  assert (Hnew : circuits second_snapshot !! "0"
                 = Some (make_circuit_state (sample_reading 0 (Some (43 # 2)%Q))
                           "Hall" unassigned_schedules))
    by (vm_compute; reflexivity).
  exact (poll_against_previous (noon + timedelta_minutes 1)%Z second_coordinator
           first_poll_snapshot second_snapshot "0" _ _ Hdata H2 Hold Hnew).
Defined.

(** The handler of the module as it is: an authentication failure ends in the
    failed lookup of [datetime]. *)
Lemma coordinator_handler_cases (target : string) (now : datetime) (e : PyExn) :
  handle_fetch_error coordinator_globals target now e
  = match exn_class e with
    | TimeoutError =>
        mkExn ConfigEntryNotReady ["Timed out while connecting to " ++ target]
    | _ =>
        match exn_args e with
        | [] => mkExn IndexError ["tuple index out of range"]
        | first :: _ =>
            if String.eqb first AUTH_FAILED
            then mkExn NameError ["name 'datetime' is not defined"]
            else mkExn ConfigEntryError ["Unexpected error"]
        end
    end.
Proof.
  unfold handle_fetch_error.
  destruct (exn_class e); try reflexivity;
    destruct (exn_args e) as [|first rest]; try reflexivity;
    destruct (String.eqb first AUTH_FAILED); reflexivity.
Qed.

(** X5: when the controller fails every call with [e], the poll raises
    not-ready, naming the configured URL, for a timeout; an index error when
    [e] carries no argument; and the generic configuration error for any other
    exception whose message is not the authentication message. *)
Theorem poll_wraps_device_failure
    (now : datetime) (self : BmrUpdateCoordinator) (e : PyExn) :
  fault (bmr self) = Some e ->
  (exn_class e = TimeoutError ->
   _async_update_data now self
   = Raises (mkExn ConfigEntryNotReady
               ["Timed out while connecting to " ++ url self]))
  /\ (exn_class e <> TimeoutError -> exn_args e = [] ->
      _async_update_data now self
      = Raises (mkExn IndexError ["tuple index out of range"]))
  /\ (forall message rest,
        exn_class e <> TimeoutError -> exn_args e = message :: rest ->
        message <> AUTH_FAILED ->
        _async_update_data now self
        = Raises (mkExn ConfigEntryError ["Unexpected error"])).
Proof.
  intros Hf. unfold _async_update_data. rewrite (fetch_state_fault _ _ Hf).
  rewrite coordinator_handler_cases. repeat split.
  - intros ->. reflexivity.
  - intros Hc ->. destruct (exn_class e); try reflexivity. contradiction.
  - intros message rest Hc -> Hm.
    apply String.eqb_neq in Hm. rewrite Hm.
    destruct (exn_class e); try reflexivity. contradiction.
Qed.

Lemma poll_wraps_device_failure_witness :
  _async_update_data noon
    (sample_coordinator
       (with_fault (mkExn TimeoutError ["timed out"])
                   (sample_bmr (fun _ => Some 21%Q))) None)
  = Raises (mkExn ConfigEntryNotReady
              ["Timed out while connecting to http://192.168.1.5"]).
Proof.
  exact (proj1 (poll_wraps_device_failure noon
                  (sample_coordinator
                     (with_fault (mkExn TimeoutError ["timed out"])
                                 (sample_bmr (fun _ => Some 21%Q))) None)
                  (mkExn TimeoutError ["timed out"]) eq_refl) eq_refl).
Defined.

(** X6: whatever the configuration, the controller and the time, neither the
    poll nor the connection probe of the setup raises the typed
    authentication error. *)
Theorem poll_never_raises_auth_failed
    (now : datetime) (self : BmrUpdateCoordinator) (target : string) (b : Bmr) :
  raised_class (_async_update_data now self) <> Some ConfigEntryAuthFailed
  /\ raised_class (async_setup_entry_probe now target b)
     <> Some ConfigEntryAuthFailed.
Proof.
  split.
  - unfold _async_update_data. destruct (fetch_state self) as [s|e]; [discriminate|].
    cbn. rewrite coordinator_handler_cases.
    destruct (exn_class e); try discriminate;
      destruct (exn_args e) as [|first rest]; try discriminate;
      destruct (String.eqb first AUTH_FAILED); discriminate.
  - unfold async_setup_entry_probe. destruct (getUniqueId b) as [s|e]; [discriminate|].
    cbn. unfold handle_fetch_error.
    destruct (exn_class e); try discriminate;
      destruct (exn_args e) as [|first rest]; try discriminate;
      destruct (String.eqb first AUTH_FAILED); discriminate.
Qed.

(** A time keeps its date 15 minutes earlier and 15 minutes later exactly
    when its time of day is at least 00:15 and before 23:45. *)
Lemma day_window (now : datetime) :
  ((date now =? date (now - timedelta_minutes 15))
   && (date now =? date (now + timedelta_minutes 15)))%Z
  = ((timedelta_minutes 15 <=? time_of_day now)
     && (time_of_day now <? 86400000000 - timedelta_minutes 15))%Z.
Proof.
  unfold date, time_of_day, timedelta_minutes.
  replace (15 * 60000000)%Z with 900000000%Z by reflexivity.
  apply eq_true_iff_eq.
  rewrite !andb_true_iff, !Z.eqb_eq, Z.leb_le, Z.ltb_lt.
  Z.div_mod_to_equations. lia.
Qed.

(** X7: were [datetime] and [timedelta] bound in the module, the handler's
    test would raise the typed authentication error exactly for a local time
    of day from 00:15:00 (included) to 23:45:00 (excluded), and the generic
    configuration error in the half hour around midnight. *)
Theorem midnight_window
    (globals : list string) (now : datetime) (message : string) :
  lookup_global globals "datetime" = Returns tt ->
  lookup_global globals "timedelta" = Returns tt ->
  near_midnight_check globals now message
  = Returns
      (if ((timedelta_minutes 15 <=? time_of_day now)
           && (time_of_day now <? 86400000000 - timedelta_minutes 15))%Z
       then mkExn ConfigEntryAuthFailed [message]
       else mkExn ConfigEntryError ["Unexpected error"]).
Proof.
  intros H1 H2. unfold near_midnight_check. rewrite H1. cbn. rewrite H2. cbn.
  rewrite (day_window now). destruct (_ && _)%bool; reflexivity.
Qed.

Lemma midnight_window_witness :
  near_midnight_check ("datetime" :: coordinator_globals)
    (at_clock 739000 23 45) AUTH_FAILED
  = Returns (mkExn ConfigEntryError ["Unexpected error"])
  /\ near_midnight_check ("datetime" :: coordinator_globals)
       (at_clock 739000 0 15) AUTH_FAILED
     = Returns (mkExn ConfigEntryAuthFailed [AUTH_FAILED]).
Proof.
  split.
  - exact (midnight_window ("datetime" :: coordinator_globals)
             (at_clock 739000 23 45) AUTH_FAILED eq_refl eq_refl).
  - exact (midnight_window ("datetime" :: coordinator_globals)
             (at_clock 739000 0 15) AUTH_FAILED eq_refl eq_refl).
Defined.

(** * Further properties of the climate entity *)

(** The handler once the mode has been derived: every later step returns. *)
Lemma after_lookup_returns (snapshot : BmrControllerState) cs self m :
  let e1 := set_attr_preset_mode (preset_mode_of (low_mode snapshot))
              (set_controller_modes snapshot (set_circuit_state (Some cs) self)) in
  hvac_mode_of e1 = Returns m ->
  exists a,
    hvac_action_of (set_attr_hvac_mode m e1) = Returns a
    /\ after_lookup snapshot cs self
       = (Returns tt,
          async_write_ha_state
            (set_attr_target_temperature (target_temperature cs)
               (set_attr_current_temperature (temperature cs)
                  (set_attr_hvac_action a (set_attr_hvac_mode m e1))))).
Proof.
  intros e1 Hm. destruct (hvac_action_returns _ _ m Hm) as [a Ha].
  exists a. split; [exact Ha|].
  unfold after_lookup, mbind, eff_bind, modify, _update_preset_mode.
  cbn [_low_mode set_controller_modes]. fold e1.
  unfold _update_hvac_mode. rewrite Hm.
  unfold _update_hvac_action. rewrite Ha. reflexivity.
Qed.

(** The handler when the derivation of the mode raises. *)
Lemma after_lookup_raises (snapshot : BmrControllerState) cs self e :
  let e1 := set_attr_preset_mode (preset_mode_of (low_mode snapshot))
              (set_controller_modes snapshot (set_circuit_state (Some cs) self)) in
  hvac_mode_of e1 = Raises e ->
  after_lookup snapshot cs self = (Raises e, e1).
Proof.
  intros e1 Hm.
  unfold after_lookup, mbind, eff_bind, modify, _update_preset_mode.
  cbn [_low_mode set_controller_modes]. fold e1.
  unfold _update_hvac_mode. rewrite Hm. reflexivity.
Qed.

Lemma hvac_mode_of_raises_class (self : BmrClimateEntity) e :
  hvac_mode_of self = Raises e ->
  exn_class e = ValueError \/ exn_class e = IndexError
  \/ exn_class e = AttributeError.
Proof.
  unfold hvac_mode_of.
  destruct (_circuit_state self) as [cs|]; [|discriminate].
  destruct (_summer_mode self); [|discriminate].
  destruct (_summer_mode_assignments self) as [flags|]; [|discriminate].
  unfold summer_assigned, py_int.
  destruct (int_of_string _) as [i|]; cbn; [|intros [= <-]; auto].
  unfold py_getitem.
  destruct (_ && _)%bool; cbn; [|intros [= <-]; auto].
  destruct (flags !! _) as [[|]|]; cbn; [discriminate | | intros [= <-]; auto].
  unfold override_schedule_assigned.
  destruct (schedules cs); cbn; [|intros [= <-]; auto].
  destruct (bool_decide _); discriminate.
Qed.

(** X8: for a snapshot that contains the circuit, whose summer-mode flag is
    defined and whose assignment list covers the circuit, the derived action
    is off for a circuit assigned to summer mode (even one that is heating),
    otherwise heating when the heating flag is set, otherwise cooling when the
    cooling flag is set, otherwise idle. *)
Theorem hvac_action_derivation
    (snapshot : BmrControllerState) (self : BmrClimateEntity) (cs : CircuitState)
    (active flag : bool) :
  circuits snapshot !! _circuit_id (conf self) = Some cs ->
  summer_mode snapshot = Some active ->
  circuit_summer_assigned snapshot (_circuit_id (conf self)) = Returns flag ->
  (flag = false -> is_Some (schedules cs)) ->
  exists self',
    climate_handle_coordinator_update snapshot self = (Returns tt, self')
    /\ _attr_hvac_action self'
       = Some (if flag then ACTION_OFF
               else if truthy_flag (heating cs) then HEATING
               else if truthy_flag (cooling cs) then COOLING
               else IDLE).
Proof.
  intros Hcs Hsm Hflag Hsched.
  rewrite (climate_handler_found _ _ _ Hcs).
  set (e1 := set_attr_preset_mode (preset_mode_of (low_mode snapshot))
               (set_controller_modes snapshot (set_circuit_state (Some cs) self))).
  assert (Hs : summer_assigned e1 (summer_mode_assignments snapshot) = Returns flag)
    by exact Hflag.
  assert (Hm : exists m, hvac_mode_of e1 = Returns m).
  { unfold hvac_mode_of. cbn. rewrite Hsm.
    change (summer_assigned _ (summer_mode_assignments snapshot))
      with (summer_assigned e1 (summer_mode_assignments snapshot)).
    rewrite Hs. cbn. destruct flag; [eauto|].
    destruct (Hsched eq_refl) as [sch Hsch].
    unfold override_schedule_assigned. rewrite Hsch. cbn.
    destruct (bool_decide _); eauto. }
  destruct Hm as [m Hm].
  destruct (after_lookup_returns snapshot cs self m Hm) as (a & Ha & Hrun).
  fold e1 in Ha. rewrite Hrun. eexists. split; [reflexivity|].
  cbn [_attr_hvac_action async_write_ha_state set_attr_target_temperature
       set_attr_current_temperature set_attr_hvac_action].
  unfold hvac_action_of in Ha. cbn in Ha. rewrite Hsm in Ha.
  change (summer_assigned _ (summer_mode_assignments snapshot))
    with (summer_assigned e1 (summer_mode_assignments snapshot)) in Ha.
  rewrite Hs in Ha. cbn in Ha. unfold mret, outcome_ret in Ha.
  destruct flag; [congruence|].
  destruct (truthy_flag (heating cs)); [congruence|].
  destruct (truthy_flag (cooling cs)); congruence.
Qed.

Lemma hvac_action_derivation_witness :
  exists self',
    climate_handle_coordinator_update summer_snapshot
      (new_climate (sample_conf "0")) = (Returns tt, self')
    /\ _attr_hvac_action self' = Some ACTION_OFF.
Proof.
  exact (hvac_action_derivation summer_snapshot (new_climate (sample_conf "0"))
           (sample_state 0 (Some 21%Q)) true true eq_refl eq_refl eq_refl
           (fun H => ex_intro _ unassigned_schedules eq_refl)).
Defined.

(** X9: a handler run that returns found the circuit in the snapshot, shows
    its measured and target temperatures, and published the state exactly
    once. *)
Theorem climate_handler_returns
    (snapshot : BmrControllerState) (self self' : BmrClimateEntity) :
  climate_handle_coordinator_update snapshot self = (Returns tt, self') ->
  exists cs,
    circuits snapshot !! _circuit_id (conf self) = Some cs
    /\ _circuit_state self' = Some cs
    /\ _attr_current_temperature self' = temperature cs
    /\ _attr_target_temperature self' = target_temperature cs
    /\ ha_state_writes self' = S (ha_state_writes self)
    /\ conf self' = conf self.
Proof.
  intros H.
  destruct (circuits snapshot !! _circuit_id (conf self)) as [cs|] eqn:Hcs.
  - exists cs. split; [reflexivity|].
    rewrite (climate_handler_found _ _ _ Hcs) in H.
    destruct (hvac_mode_of (set_attr_preset_mode (preset_mode_of (low_mode snapshot))
                (set_controller_modes snapshot (set_circuit_state (Some cs) self))))
      as [m|e] eqn:Hm.
    + destruct (after_lookup_returns snapshot cs self m Hm) as (a & _ & Hrun).
      rewrite Hrun in H. injection H as <-. repeat split.
    + rewrite (after_lookup_raises snapshot cs self e Hm) in H. discriminate.
  - rewrite (climate_handler_missing_circuit _ _ Hcs) in H. discriminate.
Qed.

Lemma climate_handler_returns_witness :
  exists cs,
    circuits summer_snapshot !! "1" = Some cs
    /\ _attr_current_temperature
         (climate_handle_coordinator_update summer_snapshot
            (new_climate (sample_conf "1"))).2 = temperature cs.
Proof.
  destruct (climate_handler_returns summer_snapshot (new_climate (sample_conf "1"))
              (climate_handle_coordinator_update summer_snapshot
                 (new_climate (sample_conf "1"))).2 eq_refl)
    as (cs & H1 & _ & H2 & _).
  exists cs. split; [exact H1 | exact H2].
Defined.

(** X10: a handler run that raises publishes nothing and leaves the mode, the
    action and both temperatures as they were; the exception is a [KeyError]
    (circuit missing from the snapshot), a [ValueError], an [IndexError] or an
    [AttributeError]. *)
Theorem climate_handler_raises
    (snapshot : BmrControllerState) (self self' : BmrClimateEntity) (e : PyExn) :
  climate_handle_coordinator_update snapshot self = (Raises e, self') ->
  ha_state_writes self' = ha_state_writes self
  /\ _attr_hvac_mode self' = _attr_hvac_mode self
  /\ _attr_hvac_action self' = _attr_hvac_action self
  /\ _attr_current_temperature self' = _attr_current_temperature self
  /\ _attr_target_temperature self' = _attr_target_temperature self
  /\ (exn_class e = KeyError \/ exn_class e = ValueError
      \/ exn_class e = IndexError \/ exn_class e = AttributeError).
Proof.
  intros H.
  destruct (circuits snapshot !! _circuit_id (conf self)) as [cs|] eqn:Hcs.
  - rewrite (climate_handler_found _ _ _ Hcs) in H.
    destruct (hvac_mode_of (set_attr_preset_mode (preset_mode_of (low_mode snapshot))
                (set_controller_modes snapshot (set_circuit_state (Some cs) self))))
      as [m|e'] eqn:Hm.
    + destruct (after_lookup_returns snapshot cs self m Hm) as (a & _ & Hrun).
      rewrite Hrun in H. discriminate.
    + rewrite (after_lookup_raises snapshot cs self e' Hm) in H.
      injection H as <- <-. repeat split.
      right. exact (hvac_mode_of_raises_class _ _ Hm).
  - rewrite (climate_handler_missing_circuit _ _ Hcs) in H.
    injection H as <- <-. repeat split. left. reflexivity.
Qed.

Lemma climate_handler_raises_witness :
  ha_state_writes
    (climate_handle_coordinator_update flagless_snapshot
       (new_climate (sample_conf "1"))).2 = 0%nat.
Proof.
  exact (proj1 (climate_handler_raises flagless_snapshot
                  (new_climate (sample_conf "1")) _
                  (mkExn KeyError ["1"]) eq_refl)).
Defined.

Lemma py_getitem_out_of_range {A} (l : list A) (i : Z) :
  (Z.of_nat (length l) <= i \/ i < - Z.of_nat (length l))%Z ->
  py_getitem l i = Raises (mkExn IndexError ["list index out of range"]).
Proof.
  intros H. unfold py_getitem.
  destruct (Z.ltb_spec i 0).
  - destruct (Z.leb_spec 0 (Z.of_nat (length l) + i)); [lia|]. reflexivity.
  - destruct (Z.ltb_spec i (Z.of_nat (length l))); [lia|].
    rewrite andb_false_r. reflexivity.
Qed.

(** X11: when the snapshot contains the circuit and its summer-mode flag is
    defined, but the circuit's number lies outside the summer-mode assignment
    list, the handler raises [IndexError]: the preset has been updated, the
    mode has not, and nothing is published. *)
Theorem climate_handler_index_error
    (snapshot : BmrControllerState) (self : BmrClimateEntity) (cs : CircuitState)
    (active : bool) (i : Z) :
  circuits snapshot !! _circuit_id (conf self) = Some cs ->
  summer_mode snapshot = Some active ->
  py_int (_circuit_id (conf self)) = Returns i ->
  (Z.of_nat (length (summer_mode_assignments snapshot)) <= i
   \/ i < - Z.of_nat (length (summer_mode_assignments snapshot)))%Z ->
  exists self',
    climate_handle_coordinator_update snapshot self
    = (Raises (mkExn IndexError ["list index out of range"]), self')
    /\ _attr_preset_mode self' = preset_mode_of (low_mode snapshot)
    /\ _attr_hvac_mode self' = _attr_hvac_mode self
    /\ ha_state_writes self' = ha_state_writes self.
Proof.
  intros Hcs Hsm Hi Hrange.
  rewrite (climate_handler_found _ _ _ Hcs).
  rewrite (after_lookup_raises snapshot cs self
             (mkExn IndexError ["list index out of range"])).
  - eexists. split; [reflexivity|]. repeat split.
  - unfold hvac_mode_of. cbn. rewrite Hsm.
    unfold summer_assigned. cbn. rewrite Hi. cbn.
    rewrite (py_getitem_out_of_range _ _ Hrange). reflexivity.
Qed.

Lemma climate_handler_index_error_witness :
  exists self',
    climate_handle_coordinator_update short_snapshot (new_climate (sample_conf "5"))
    = (Raises (mkExn IndexError ["list index out of range"]), self')
    /\ _attr_preset_mode self' = preset_mode_of (low_mode short_snapshot)
    /\ _attr_hvac_mode self' = _attr_hvac_mode (new_climate (sample_conf "5"))
    /\ ha_state_writes self' = ha_state_writes (new_climate (sample_conf "5")).
Proof.
  assert (Hrange :
    (Z.of_nat (length (summer_mode_assignments short_snapshot)) <= 5
     \/ 5 < - Z.of_nat (length (summer_mode_assignments short_snapshot)))%Z)
    by (left; simpl; lia).
  exact (climate_handler_index_error short_snapshot (new_climate (sample_conf "5"))
           (sample_state 5 (Some 21%Q)) true 5 eq_refl eq_refl eq_refl Hrange).
Defined.

Lemma hvac_mode_of_values (self : BmrClimateEntity) m :
  hvac_mode_of self = Returns (Some m) ->
  m = OFF \/ m = AUTO
  \/ (m = HEAT /\ _enable_cooling (conf self) = false)
  \/ (m = HEAT_COOL /\ _enable_cooling (conf self) = true).
Proof.
  unfold hvac_mode_of.
  destruct (_circuit_state self) as [cs|]; [|discriminate].
  destruct (_summer_mode self); [|discriminate].
  destruct (_summer_mode_assignments self) as [flags|]; [|discriminate].
  destruct (summer_assigned self flags) as [[|]|]; cbn;
    [intros [= <-]; auto | | discriminate].
  destruct (override_schedule_assigned self cs) as [[|]|]; cbn;
    [|intros [= <-]; auto | discriminate].
  destruct (_enable_cooling (conf self)); intros [= <-]; auto.
Qed.

(** X12: the mode a returning handler derives is undefined or one of the
    modes the entity advertises; it is never COOL (nor DRY, nor FAN_ONLY),
    and it is HEAT only without cooling and HEAT_COOL only with cooling. *)
Theorem derived_mode_is_advertised
    (snapshot : BmrControllerState) (self self' : BmrClimateEntity) (m : HVACMode) :
  climate_handle_coordinator_update snapshot self = (Returns tt, self') ->
  _attr_hvac_mode self' = Some m ->
  m ∈ hvac_modes (conf self)
  /\ (m = OFF \/ m = AUTO
      \/ (m = HEAT /\ _enable_cooling (conf self) = false)
      \/ (m = HEAT_COOL /\ _enable_cooling (conf self) = true)).
Proof.
  intros H Hmode.
  destruct (circuits snapshot !! _circuit_id (conf self)) as [cs|] eqn:Hcs;
    [|rewrite (climate_handler_missing_circuit _ _ Hcs) in H; discriminate].
  rewrite (climate_handler_found _ _ _ Hcs) in H.
  destruct (hvac_mode_of (set_attr_preset_mode (preset_mode_of (low_mode snapshot))
              (set_controller_modes snapshot (set_circuit_state (Some cs) self))))
    as [m'|e] eqn:Hm;
    [|rewrite (after_lookup_raises snapshot cs self e Hm) in H; discriminate].
  destruct (after_lookup_returns snapshot cs self m' Hm) as (a & _ & Hrun).
  rewrite Hrun in H. injection H as <-. cbn in Hmode. subst m'.
  apply hvac_mode_of_values in Hm. cbn [conf set_attr_preset_mode
    set_controller_modes set_circuit_state] in Hm.
  split; [|exact Hm]. unfold hvac_modes.
  destruct Hm as [->|[->|[[-> ->]|[-> ->]]]];
    try destruct (_enable_cooling (conf self)); set_solver.
Qed.

Lemma derived_mode_is_advertised_witness :
  AUTO ∈ hvac_modes (sample_conf "1").
Proof.
  exact (proj1 (derived_mode_is_advertised summer_snapshot
                  (new_climate (sample_conf "1"))
                  (climate_handle_coordinator_update summer_snapshot
                     (new_climate (sample_conf "1"))).2 AUTO eq_refl eq_refl)).
Defined.

(** ** Preset modes *)

Lemma async_set_preset_mode_run
    (self : BmrClimateEntity) (preset_mode : string) (h : Hass) (i : Z) :
  fault (device h) = None ->
  py_int (_circuit_id (conf self)) = Returns i ->
  let writes :=
    low_mode_writes (device h) i (_away_temperature (conf self)) preset_mode in
  async_set_preset_mode self preset_mode h
  = (Returns tt,
     {| device := bmr_apply_all writes (device h);
        journal := journal h ++ writes;
        refresh_requests := S (refresh_requests h) |}).
Proof.
  intros Hf Hi writes. subst writes.
  unfold async_set_preset_mode, low_mode_writes.
  destruct (String.eqb preset_mode CLIMATE_PRESET_AWAY).
  - unfold mbind, eff_bind, lift. rewrite Hi.
    rewrite executor_job_ok by exact Hf.
    unfold executor_read, getLowMode, request.
    cbn [device bmr_apply fault dev_low_mode]. rewrite Hf.
    destruct (enabled (dev_low_mode (device h)));
      cbn [negb bmr_apply_all foldl bmr_apply]; rewrite ?Hf.
    + reflexivity.
    + unfold executor_job. cbn [device bmr_apply fault journal refresh_requests].
      unfold async_request_refresh, modify.
      cbn [device journal refresh_requests]. rewrite <- app_assoc. reflexivity.
  - unfold mbind, eff_bind, lift. rewrite Hi.
    rewrite executor_job_ok by exact Hf.
    unfold executor_read, getLowModeAssignments, request.
    cbn [device bmr_apply fault dev_low_mode_assignments]. rewrite Hf.
    destruct (py_any (assign [i] false (dev_low_mode_assignments (device h))));
      cbn [negb bmr_apply_all foldl bmr_apply]; rewrite ?Hf.
    + reflexivity.
    + unfold executor_job. cbn [device bmr_apply fault journal refresh_requests].
      unfold async_request_refresh, modify.
      cbn [device journal refresh_requests]. rewrite <- app_assoc. reflexivity.
Qed.

Lemma assign_single_other (i : Z) (v : bool) (flags : list bool) (j : nat) :
  j <> Z.to_nat i -> assign [i] v flags !! j = flags !! j.
Proof.
  intros Hj. unfold assign. cbn [foldl].
  destruct (0 <=? i)%Z; [|reflexivity].
  apply list_lookup_insert_ne. auto.
Qed.

Lemma assign_single_at (i : Z) (v : bool) (flags : list bool) :
  (0 <= i < Z.of_nat (length flags))%Z ->
  assign [i] v flags !! Z.to_nat i = Some v.
Proof.
  intros Hi. apply assign_covers; [apply list_elem_of_singleton; reflexivity|].
  exact Hi.
Qed.

Lemma py_any_false (flags : list bool) :
  py_any flags = false -> forall n x, flags !! n = Some x -> x = false.
Proof.
  unfold py_any. induction flags as [|f flags IH]; intros H n x Hn.
  - destruct n; discriminate.
  - cbn in H. apply orb_false_iff in H. destruct H as [Hf Hrest].
    destruct n as [|n]; cbn in Hn.
    + injection Hn as <-. exact Hf.
    + exact (IH Hrest n x Hn).
Qed.

(** X13: on a controller that answers, choosing the away preset returns,
    flags the circuit in the low-mode assignments, leaves every other
    circuit's flag alone and leaves low mode enabled; the entity's away
    temperature is written only when low mode was disabled, otherwise the
    controller keeps the low-mode temperature it had. *)
Theorem preset_away_enables_low_mode
    (self : BmrClimateEntity) (b : Bmr) (i : Z) :
  fault b = None ->
  py_int (_circuit_id (conf self)) = Returns i ->
  (0 <= i < Z.of_nat (length (dev_low_mode_assignments b)))%Z ->
  let r := run (async_set_preset_mode self CLIMATE_PRESET_AWAY) b in
  r.1 = Returns tt
  /\ journal r.2
     = setLowModeAssignments [i] true
       :: (if enabled (dev_low_mode b) then []
           else [setLowMode true (Some (_away_temperature (conf self)))])
  /\ enabled (dev_low_mode (device r.2)) = true
  /\ lm_temperature (dev_low_mode (device r.2))
     = (if enabled (dev_low_mode b) then lm_temperature (dev_low_mode b)
        else Some (_away_temperature (conf self)))
  /\ dev_low_mode_assignments (device r.2) !! Z.to_nat i = Some true
  /\ forall j, j <> Z.to_nat i ->
       dev_low_mode_assignments (device r.2) !! j
       = dev_low_mode_assignments b !! j.
Proof.
  intros Hf Hi Hrange r. subst r. unfold run.
  rewrite (async_set_preset_mode_run self _
             {| device := b; journal := []; refresh_requests := 0 |} i Hf Hi).
  cbn [fst snd device journal app]. unfold low_mode_writes.
  change (String.eqb CLIMATE_PRESET_AWAY CLIMATE_PRESET_AWAY) with true. cbn iota.
  destruct (enabled (dev_low_mode b)) eqn:Hen;
    cbn [bmr_apply_all foldl bmr_apply dev_low_mode dev_low_mode_assignments
         enabled lm_temperature];
    (split; [reflexivity|]); (split; [reflexivity|]); (split; [auto|]);
    (split; [reflexivity|]);
    (split; [apply assign_single_at; exact Hrange|]);
    intros j Hj; apply assign_single_other; exact Hj.
Qed.

Lemma preset_away_enables_low_mode_witness :
  journal (run (async_set_preset_mode (new_climate (sample_conf "1"))
                  CLIMATE_PRESET_AWAY)
               (sample_bmr (fun _ => Some 21%Q))).2
  = [setLowModeAssignments [1%Z] true; setLowMode true (Some 18%Q)].
Proof.
  assert (Hrange : (0 <= 1 < Z.of_nat (length (dev_low_mode_assignments
                                         (sample_bmr (fun _ => Some 21%Q)))))%Z)
    by (simpl; lia).
  exact (proj1 (proj2
    (preset_away_enables_low_mode (new_climate (sample_conf "1"))
       (sample_bmr (fun _ => Some 21%Q)) 1 eq_refl eq_refl Hrange))).
Defined.

(** X14: on a controller that answers, choosing any preset other than away
    returns, clears the circuit's low-mode flag, leaves every other circuit's
    flag and the low-mode temperature alone, and disables low mode exactly
    when no circuit remains assigned. *)
Theorem preset_none_disables_when_last
    (self : BmrClimateEntity) (preset_mode : string) (b : Bmr) (i : Z) :
  fault b = None ->
  py_int (_circuit_id (conf self)) = Returns i ->
  preset_mode <> CLIMATE_PRESET_AWAY ->
  (0 <= i < Z.of_nat (length (dev_low_mode_assignments b)))%Z ->
  let r := run (async_set_preset_mode self preset_mode) b in
  r.1 = Returns tt
  /\ dev_low_mode_assignments (device r.2) !! Z.to_nat i = Some false
  /\ (forall j, j <> Z.to_nat i ->
        dev_low_mode_assignments (device r.2) !! j
        = dev_low_mode_assignments b !! j)
  /\ enabled (dev_low_mode (device r.2))
     = enabled (dev_low_mode b)
       && py_any (dev_low_mode_assignments (device r.2))
  /\ lm_temperature (dev_low_mode (device r.2)) = lm_temperature (dev_low_mode b).
Proof.
  intros Hf Hi Hp Hrange r. subst r. unfold run.
  rewrite (async_set_preset_mode_run self _
             {| device := b; journal := []; refresh_requests := 0 |} i Hf Hi).
  cbn [fst snd device journal app]. unfold low_mode_writes.
  apply String.eqb_neq in Hp. rewrite Hp.
  destruct (py_any (assign [i] false (dev_low_mode_assignments b))) eqn:Hany;
    cbn [bmr_apply_all foldl bmr_apply dev_low_mode dev_low_mode_assignments
         enabled lm_temperature];
    (split; [reflexivity|]);
    (split; [apply assign_single_at; exact Hrange|]);
    (split; [intros j Hj; apply assign_single_other; exact Hj|]);
    rewrite Hany; split; try reflexivity.
  - rewrite andb_true_r. reflexivity.
  - rewrite andb_false_r. reflexivity.
Qed.

Lemma preset_none_disables_when_last_witness :
  enabled (dev_low_mode
             (device (run (async_set_preset_mode (new_climate (sample_conf "1"))
                             CLIMATE_PRESET_NONE) away_bmr).2))
  = enabled (dev_low_mode away_bmr)
    && py_any (dev_low_mode_assignments
                 (device (run (async_set_preset_mode
                                 (new_climate (sample_conf "1"))
                                 CLIMATE_PRESET_NONE) away_bmr).2)).
Proof.
  assert (Hp : CLIMATE_PRESET_NONE <> CLIMATE_PRESET_AWAY) by discriminate.
  assert (Hrange : (0 <= 1 < Z.of_nat (length (dev_low_mode_assignments
                                         away_bmr)))%Z) by (simpl; lia).
  exact (proj1 (proj2 (proj2 (proj2
    (preset_none_disables_when_last (new_climate (sample_conf "1"))
       CLIMATE_PRESET_NONE away_bmr 1 eq_refl eq_refl Hp Hrange))))).
Defined.

(** X15: on a controller that answers, with low mode disabled and no circuit
    assigned to it, choosing away and then none returns, restores the
    assignment list and the disabled flag, but leaves the entity's away
    temperature as the controller's low-mode temperature. *)
Theorem preset_away_then_none
    (self : BmrClimateEntity) (b : Bmr) (i : Z) :
  fault b = None ->
  py_int (_circuit_id (conf self)) = Returns i ->
  enabled (dev_low_mode b) = false ->
  py_any (dev_low_mode_assignments b) = false ->
  let r := run (async_set_preset_mode self CLIMATE_PRESET_AWAY;;
                async_set_preset_mode self CLIMATE_PRESET_NONE) b in
  r.1 = Returns tt
  /\ journal r.2
     = [setLowModeAssignments [i] true;
        setLowMode true (Some (_away_temperature (conf self)));
        setLowModeAssignments [i] false;
        setLowMode false None]
  /\ dev_low_mode_assignments (device r.2) = dev_low_mode_assignments b
  /\ enabled (dev_low_mode (device r.2)) = false
  /\ lm_temperature (dev_low_mode (device r.2))
     = Some (_away_temperature (conf self)).
Proof.
  intros Hf Hi Hen Hany r.
  assert (Hback : assign [i] false (assign [i] true (dev_low_mode_assignments b))
                  = dev_low_mode_assignments b).
  { apply list_eq. intros n. rewrite !assign_lookup.
    destruct (dev_low_mode_assignments b !! n) as [x|] eqn:Hn; [|reflexivity].
    cbn. rewrite (py_any_false _ Hany n x Hn).
    destruct (bool_decide (Z.of_nat n ∈ [i])); reflexivity. }
  set (a1 := setLowModeAssignments [i] true).
  set (a2 := setLowMode true (Some (_away_temperature (conf self)))).
  set (b1 := bmr_apply a2 (bmr_apply a1 b)).
  assert (Hw1 : low_mode_writes b i (_away_temperature (conf self))
                  CLIMATE_PRESET_AWAY = [a1; a2]).
  { unfold low_mode_writes. rewrite String.eqb_refl, Hen. reflexivity. }
  assert (Hw2 : low_mode_writes b1 i (_away_temperature (conf self))
                  CLIMATE_PRESET_NONE
                = [setLowModeAssignments [i] false; setLowMode false None]).
  { unfold low_mode_writes.
    replace (String.eqb CLIMATE_PRESET_NONE CLIMATE_PRESET_AWAY) with false
      by reflexivity.
    subst b1 a1 a2. cbn [bmr_apply dev_low_mode_assignments].
    rewrite Hback, Hany. reflexivity. }
  assert (Hf1 : fault b1 = None)
    by (subst b1; rewrite !bmr_apply_fault; exact Hf).
  assert (Hr : r = (Returns tt,
    {| device := bmr_apply (setLowMode false None)
                   (bmr_apply (setLowModeAssignments [i] false) b1);
       journal := [a1; a2; setLowModeAssignments [i] false; setLowMode false None];
       refresh_requests := 2 |})).
  { subst r. unfold run. unfold mbind at 1. unfold eff_bind at 1.
    rewrite (async_set_preset_mode_run self _
               {| device := b; journal := []; refresh_requests := 0 |} i Hf Hi).
    cbn [device journal refresh_requests app]. rewrite Hw1.
    cbn [bmr_apply_all foldl]. fold b1.
    rewrite (async_set_preset_mode_run self _
               {| device := b1; journal := [a1; a2]; refresh_requests := 1 |}
               i Hf1 Hi).
    cbn [device journal refresh_requests]. rewrite Hw2. reflexivity. }
  rewrite Hr. clear Hr r.
  split; [reflexivity|]. split; [reflexivity|].
  subst b1 a1 a2.
  cbn [snd device bmr_apply dev_low_mode dev_low_mode_assignments
       enabled lm_temperature].
  rewrite Hback. repeat split.
Qed.

Lemma preset_away_then_none_witness :
  dev_low_mode_assignments
    (device (run (async_set_preset_mode (new_climate (sample_conf "1"))
                    CLIMATE_PRESET_AWAY;;
                  async_set_preset_mode (new_climate (sample_conf "1"))
                    CLIMATE_PRESET_NONE)
                 (sample_bmr (fun _ => Some 21%Q))).2)
  = [false; false; false; false].
Proof.
  exact (proj1 (proj2 (proj2
    (preset_away_then_none (new_climate (sample_conf "1"))
       (sample_bmr (fun _ => Some 21%Q)) 1 eq_refl eq_refl eq_refl eq_refl)))).
Defined.

(** ** Requested and reported modes *)






Lemma summer_writes_effect (b : Bmr) (i : Z) (mode : HVACMode) :
  dev_summer_mode (bmr_apply_all (summer_writes b i mode) b)
  = (if bool_decide (mode = OFF) then true
     else dev_summer_mode b
          && py_any (assign [i] false (dev_summer_mode_assignments b)))
  /\ dev_low_mode (bmr_apply_all (summer_writes b i mode) b) = dev_low_mode b
  /\ dev_low_mode_assignments (bmr_apply_all (summer_writes b i mode) b)
     = dev_low_mode_assignments b.
Proof.
  unfold summer_writes. destruct (decide (mode = OFF)) as [H|H].
  - rewrite bool_decide_eq_true_2 by exact H.
    destruct (dev_summer_mode b) eqn:E; cbn; rewrite ?E; auto.
  - rewrite bool_decide_eq_false_2 by exact H.
    destruct (py_any _); cbn; rewrite ?andb_true_r, ?andb_false_r; auto.
Qed.

(** The controller after [async_set_hvac_mode] returned. *)
Lemma async_set_hvac_mode_device
    (self : BmrClimateEntity) (b : Bmr) (i : Z) (mode : HVACMode) :
  fault b = None ->
  py_int (_circuit_id (conf self)) = Returns i ->
  (mode = HEAT \/ mode = HEAT_COOL)
  \/ (exists rotation,
        py_ints (_circuit_auto_mode_daily_schedules (conf self))
        = Returns rotation) ->
  exists ids first_day,
    run (async_set_hvac_mode self mode) b
    = (Returns tt,
       {| device := bmr_apply (setCircuitSchedules i ids first_day)
                      (bmr_apply_all (summer_writes b i mode) b);
          journal := summer_writes b i mode
                     ++ [setCircuitSchedules i ids first_day];
          refresh_requests := 1 |}).
Proof.
  intros Hf Hi Hcase. unfold run.
  destruct (decide (mode = HEAT \/ mode = HEAT_COOL)) as [Hheat|Hno].
  - eexists _, _.
    rewrite (async_set_hvac_mode_heat self mode
               {| device := b; journal := []; refresh_requests := 0 |} i
               Hf Hi Hheat). reflexivity.
  - destruct Hcase as [Hheat|[rotation Hrot]]; [contradiction|].
    eexists _, _.
    rewrite (async_set_hvac_mode_rotation self mode
               {| device := b; journal := []; refresh_requests := 0 |} i rotation
               Hf Hi Hrot ltac:(tauto) ltac:(tauto)). reflexivity.
Qed.

(** X18: a mode change that returns touches only this circuit's summer-mode
    flag and schedule assignment and the summer-mode switch: the other
    circuits' flags and schedule assignments, the schedule bodies and the
    low-mode state stay as they were.  Summer mode ends up on after OFF; after
    any other mode it stays as it was while some circuit remains assigned and
    is switched off otherwise. *)
Theorem hvac_mode_change_frame
    (self : BmrClimateEntity) (b : Bmr) (i : Z) (mode : HVACMode) :
  fault b = None ->
  py_int (_circuit_id (conf self)) = Returns i ->
  (mode = HEAT \/ mode = HEAT_COOL)
  \/ (exists rotation,
        py_ints (_circuit_auto_mode_daily_schedules (conf self))
        = Returns rotation) ->
  let r := run (async_set_hvac_mode self mode) b in
  r.1 = Returns tt
  /\ dev_summer_mode (device r.2)
     = (if bool_decide (mode = OFF) then true
        else dev_summer_mode b
             && py_any (dev_summer_mode_assignments (device r.2)))
  /\ (forall j, j <> Z.to_nat i ->
        dev_summer_mode_assignments (device r.2) !! j
        = dev_summer_mode_assignments b !! j)
  /\ (forall j, j <> i ->
        dev_circuit_schedules (device r.2) !! j = dev_circuit_schedules b !! j)
  /\ dev_schedules (device r.2) = dev_schedules b
  /\ dev_low_mode (device r.2) = dev_low_mode b
  /\ dev_low_mode_assignments (device r.2) = dev_low_mode_assignments b.
Proof.
  intros Hf Hi Hcase r.
  destruct (async_set_hvac_mode_device self b i mode Hf Hi Hcase)
    as (ids & first_day & Hr).
  subst r. rewrite Hr. cbn [fst snd device].
  destruct (summer_writes_keep_schedules b i mode) as (Hcs & Hsch & _ & _).
  destruct (summer_writes_effect b i mode) as (Hsm & Hlm & Hlma).
  cbn [bmr_apply dev_summer_mode dev_summer_mode_assignments
       dev_circuit_schedules dev_schedules dev_low_mode dev_low_mode_assignments].
  rewrite summer_writes_assignments.
  split; [reflexivity|]. split; [|split; [|split; [|auto]]].
  - rewrite Hsm. destruct (bool_decide (mode = OFF)); reflexivity.
  - intros j Hj. apply assign_single_other. exact Hj.
  - intros j Hj. rewrite lookup_insert_ne by auto. rewrite Hcs. reflexivity.
Qed.

Lemma hvac_mode_change_frame_witness :
  dev_summer_mode
    (device (run (async_set_hvac_mode (new_climate (sample_conf "1")) OFF)
                 (sample_bmr (fun _ => Some 21%Q))).2) = true.
Proof.
  exact (proj1 (proj2
    (hvac_mode_change_frame (new_climate (sample_conf "1"))
       (sample_bmr (fun _ => Some 21%Q)) 1 OFF eq_refl eq_refl
       (or_intror (ex_intro _ [1; 2; 3]%Z eq_refl))))).
Defined.

(** ** Target temperature *)

Lemma set_temperature_in_heat_mode_run
    (self : BmrClimateEntity) (b : Bmr) (temp : option Q) :
  fault b = None ->
  _attr_hvac_mode self = Some HEAT \/ _attr_hvac_mode self = Some HEAT_COOL ->
  (run (async_set_temperature self temp) b).1 = Returns tt
  /\ device (run (async_set_temperature self temp) b).2
     = bmr_apply
         (setSchedule (_circuit_manual_mode_schedule (conf self))
            (_circuit_name (conf self) ++ " override") [("00:00", temp)]) b.
Proof.
  intros Hf Hmode. unfold run, async_set_temperature.
  unfold mbind at 1 3. unfold eff_bind at 1 3.
  rewrite executor_job_ok by exact Hf.
  rewrite bool_decide_eq_true_2 by exact Hmode. split; reflexivity.
Qed.

(** X19: in HEAT or HEAT_COOL mode, on a controller that answers, setting a
    target temperature returns after a single write, the body of the sentinel
    schedule, and one refresh request: schedule assignments and summer mode
    are not touched. *)
Theorem set_temperature_in_heat_mode
    (self : BmrClimateEntity) (b : Bmr) (temp : option Q) :
  fault b = None ->
  _attr_hvac_mode self = Some HEAT \/ _attr_hvac_mode self = Some HEAT_COOL ->
  let body := setSchedule (_circuit_manual_mode_schedule (conf self))
                (_circuit_name (conf self) ++ " override") [("00:00", temp)] in
  let r := run (async_set_temperature self temp) b in
  r.1 = Returns tt
  /\ journal r.2 = [body]
  /\ refresh_requests r.2 = 1%nat
  /\ device r.2 = bmr_apply body b
  /\ dev_circuit_schedules (device r.2) = dev_circuit_schedules b
  /\ dev_summer_mode (device r.2) = dev_summer_mode b
  /\ dev_summer_mode_assignments (device r.2) = dev_summer_mode_assignments b.
Proof.
  intros Hf Hmode body r.
  assert (Hr : r = (Returns tt,
    {| device := bmr_apply body b; journal := [body]; refresh_requests := 1 |})).
  { subst r. unfold run, async_set_temperature.
    unfold mbind at 1. unfold eff_bind at 1.
    rewrite executor_job_ok by exact Hf.
    rewrite bool_decide_eq_true_2 by exact Hmode. reflexivity. }
  rewrite Hr. repeat split.
Qed.

Lemma set_temperature_in_heat_mode_witness :
  journal (run (async_set_temperature
                  (set_attr_hvac_mode (Some HEAT) (new_climate (sample_conf "1")))
                  (Some 22%Q))
               (sample_bmr (fun _ => Some 21%Q))).2
  = [setSchedule 31 "Room override" [("00:00", Some 22%Q)]].
Proof.
  exact (proj1 (proj2
    (set_temperature_in_heat_mode
       (set_attr_hvac_mode (Some HEAT) (new_climate (sample_conf "1")))
       (sample_bmr (fun _ => Some 21%Q)) (Some 22%Q) eq_refl
       (or_introl eq_refl)))).
Defined.

(** X20: whatever the mode, a call that sets a target temperature on a
    controller that answers leaves the sentinel schedule with the single entry
    at 00:00 holding the requested temperature, and leaves every other
    schedule body and the low-mode state as they were. *)
Theorem set_temperature_frame
    (self : BmrClimateEntity) (b : Bmr) (temp : option Q) (i : Z) :
  fault b = None ->
  py_int (_circuit_id (conf self)) = Returns i ->
  let manual := _circuit_manual_mode_schedule (conf self) in
  let r := run (async_set_temperature self temp) b in
  r.1 = Returns tt
  /\ dev_schedules (device r.2) !! manual
     = Some {| sched_name := _circuit_name (conf self) ++ " override";
               timetable := [("00:00", temp)] |}
  /\ (forall k, k <> manual ->
        dev_schedules (device r.2) !! k = dev_schedules b !! k)
  /\ dev_low_mode (device r.2) = dev_low_mode b
  /\ dev_low_mode_assignments (device r.2) = dev_low_mode_assignments b.
Proof.
  intros Hf Hi manual r.
  destruct (decide (_attr_hvac_mode self = Some HEAT
                    \/ _attr_hvac_mode self = Some HEAT_COOL)) as [Hheat|Hno].
  - destruct (set_temperature_in_heat_mode_run self b temp Hf Hheat) as [Hr1 Hr2].
    subst r. rewrite Hr1, Hr2. fold manual.
    cbn [bmr_apply dev_schedules dev_low_mode dev_low_mode_assignments].
    split; [reflexivity|]. split; [apply lookup_insert_eq|].
    split; [|auto]. intros k Hk. apply lookup_insert_ne. auto.
  - pose proof (async_set_temperature_run self b temp i Hf
                  ltac:(tauto) ltac:(tauto) Hi) as Hr.
    cbn zeta in Hr. fold manual in Hr. subst r. rewrite Hr. clear Hr.
    cbn [fst snd device].
    set (b0 := bmr_apply _ b).
    set (mode := if _enable_cooling (conf self) then HEAT_COOL else HEAT).
    destruct (summer_writes_keep_schedules b0 i mode) as (_ & Hsch & _ & _).
    destruct (summer_writes_effect b0 i mode) as (_ & Hlm & Hlma).
    cbn [bmr_apply dev_schedules dev_low_mode dev_low_mode_assignments].
    rewrite Hsch, Hlm, Hlma. subst b0.
    cbn [bmr_apply dev_schedules dev_low_mode dev_low_mode_assignments].
    split; [reflexivity|]. split; [apply lookup_insert_eq|].
    split; [|auto]. intros k Hk. apply lookup_insert_ne. auto.
Qed.

Lemma set_temperature_frame_witness :
  dev_low_mode
    (device (run (async_set_temperature (auto_climate "1") (Some 22%Q))
                 away_bmr).2)
  = dev_low_mode away_bmr.
Proof.
  exact (proj1 (proj2 (proj2 (proj2
    (set_temperature_frame (auto_climate "1") away_bmr (Some 22%Q) 1
       eq_refl eq_refl))))).
Defined.

(** * Further properties of the switches and sensors *)

Lemma py_all_stops (snapshot : BmrControllerState) ids1 cid ids2 :
  Forall (fun c => circuit_summer_assigned snapshot c = Returns true) ids1 ->
  py_all (circuit_summer_assigned snapshot <$> (ids1 ++ cid :: ids2)%list)
  = match circuit_summer_assigned snapshot cid with
    | Returns true => py_all (circuit_summer_assigned snapshot <$> ids2)
    | Returns false => Returns false
    | Raises e => Raises e
    end.
Proof.
  induction 1 as [|c ids1 Hc _ IH]; [reflexivity|].
  cbn [app fmap list_fmap py_all]. rewrite Hc. exact IH.
Qed.

(** X21: the power switch reports on without reading any assignment when
    summer mode is not active (or undefined); with summer mode active it reads
    the configured circuits in order and reports on at the first unassigned
    one, without looking at the circuits configured after it. *)
Theorem power_switch_short_circuits
    (snapshot : BmrControllerState) (ids1 ids2 : list string) (cid : string) :
  (summer_mode snapshot <> Some true ->
   power_is_on (ids1 ++ cid :: ids2)%list snapshot = Returns true)
  /\ (summer_mode snapshot = Some true ->
      Forall (fun c => circuit_summer_assigned snapshot c = Returns true) ids1 ->
      circuit_summer_assigned snapshot cid = Returns false ->
      power_is_on (ids1 ++ cid :: ids2)%list snapshot = Returns true).
Proof.
  split.
  - intros H. unfold power_is_on.
    destruct (summer_mode snapshot) as [[|]|]; [contradiction|reflexivity..].
  - intros Hsm Hall Hcid. unfold power_is_on. rewrite Hsm.
    rewrite (py_all_stops _ _ _ _ Hall), Hcid. reflexivity.
Qed.

(** X22: with summer mode active, when the assignment of a configured circuit
    cannot be read while all the circuits before it are assigned, the handler
    of the power switch raises that error, keeps the previous on/off state and
    publishes nothing. *)
Theorem power_handler_lookup_error
    (snapshot : BmrControllerState) (self : BmrControllerPowerSwitch)
    (ids1 ids2 : list string) (cid : string) (e : PyExn) :
  _circuit_ids self = (ids1 ++ cid :: ids2)%list ->
  summer_mode snapshot = Some true ->
  Forall (fun c => circuit_summer_assigned snapshot c = Returns true) ids1 ->
  circuit_summer_assigned snapshot cid = Raises e ->
  power_handle_coordinator_update snapshot self = (Raises e, self).
Proof.
  intros Hids Hsm Hall Hcid. unfold power_handle_coordinator_update, power_is_on.
  rewrite Hids, Hsm, (py_all_stops _ _ _ _ Hall), Hcid. reflexivity.
Qed.

Lemma power_handler_lookup_error_witness :
  power_handle_coordinator_update short_snapshot
    (new_power_switch [ {| circuit_id := "0"; circuit_name := "Hall" |};
                        {| circuit_id := "5"; circuit_name := "Attic" |} ])
  = (Raises (mkExn IndexError ["list index out of range"]),
     new_power_switch [ {| circuit_id := "0"; circuit_name := "Hall" |};
                        {| circuit_id := "5"; circuit_name := "Attic" |} ]).
Proof.
  assert (Hall : Forall (fun c => circuit_summer_assigned short_snapshot c
                                  = Returns true) ["0"])
    by (repeat constructor).
  exact (power_handler_lookup_error short_snapshot
           (new_power_switch [ {| circuit_id := "0"; circuit_name := "Hall" |};
                               {| circuit_id := "5"; circuit_name := "Attic" |} ])
           ["0"] [] "5" _ eq_refl eq_refl Hall eq_refl).
Defined.

Lemma power_turn_off_device (snapshot : BmrControllerState) (b : Bmr) :
  fault b = None ->
  run (power_async_turn_off snapshot) b
  = (Returns tt,
     {| device := bmr_apply
                    (setSummerModeAssignments (snapshot_circuit_ids snapshot) true)
                    (bmr_apply (setSummerMode true) b);
        journal := [setSummerMode true;
                    setSummerModeAssignments (snapshot_circuit_ids snapshot) true];
        refresh_requests := 1 |}).
Proof.
  intros Hf. unfold run, power_async_turn_off.
  rewrite two_writes_then_refresh by exact Hf. reflexivity.
Qed.

Lemma power_turn_on_device (snapshot : BmrControllerState) (b : Bmr) :
  fault b = None ->
  run (power_async_turn_on snapshot) b
  = (Returns tt,
     {| device := bmr_apply
                    (setSummerModeAssignments (snapshot_circuit_ids snapshot) false)
                    (bmr_apply (setSummerMode false) b);
        journal := [setSummerMode false;
                    setSummerModeAssignments (snapshot_circuit_ids snapshot) false];
        refresh_requests := 1 |}).
Proof.
  intros Hf. unfold run, power_async_turn_on.
  rewrite two_writes_then_refresh by exact Hf. reflexivity.
Qed.

(** X23: after the power switch has been turned off on a controller that
    answers, every snapshot polled from that controller makes the switch
    report off, provided each configured circuit identifier is the number of
    a circuit of the snapshot the action ran on and lies within the
    controller's assignment list. *)
Theorem power_off_is_reported
    (snapshot : BmrControllerState) (b : Bmr) (ids : list string)
    (now : datetime) (coordinator : BmrUpdateCoordinator)
    (polled : BmrControllerState) :
  fault b = None ->
  Forall (fun cid =>
            exists i, int_of_string cid = Some i
                      /\ i ∈ snapshot_circuit_ids snapshot
                      /\ (0 <= i < Z.of_nat (length (dev_summer_mode_assignments b)))%Z)
         ids ->
  bmr coordinator = device (run (power_async_turn_off snapshot) b).2 ->
  _async_update_data now coordinator = Returns polled ->
  power_is_on ids polled = Returns false.
Proof.
  intros Hf Hids Hbmr Hpoll.
  rewrite (power_turn_off_device _ _ Hf) in Hbmr. cbn [snd device] in Hbmr.
  destruct (fetch_state_circuits _ _ (poll_returns_fetch_state _ _ _ Hpoll))
    as (_ & Hsm & Hsma & _).
  rewrite Hbmr in Hsm, Hsma. cbn in Hsm.
  cbn [bmr_apply dev_summer_mode_assignments] in Hsma.
  apply power_off_iff. split; [exact Hsm|].
  unfold all_summer_assigned. eapply Forall_impl; [exact Hids|].
  intros cid (i & Hi & Hin & Hrange). unfold circuit_summer_assigned.
  rewrite (proj2 (py_int_returns _ _) Hi). cbn. rewrite Hsma.
  apply py_getitem_in_range; [rewrite assign_length; exact Hrange|].
  apply assign_covers; assumption.
Qed.

(** X24: after the power switch has been turned on on a controller that
    answers, every snapshot polled from that controller makes the switch
    report on, whatever circuits are configured. *)
Theorem power_on_is_reported
    (snapshot : BmrControllerState) (b : Bmr) (ids : list string)
    (now : datetime) (coordinator : BmrUpdateCoordinator)
    (polled : BmrControllerState) :
  fault b = None ->
  bmr coordinator = device (run (power_async_turn_on snapshot) b).2 ->
  _async_update_data now coordinator = Returns polled ->
  power_is_on ids polled = Returns true.
Proof.
  intros Hf Hbmr Hpoll.
  rewrite (power_turn_on_device _ _ Hf) in Hbmr. cbn [snd device] in Hbmr.
  destruct (fetch_state_circuits _ _ (poll_returns_fetch_state _ _ _ Hpoll))
    as (_ & Hsm & _).
  rewrite Hbmr in Hsm. cbn in Hsm.
  unfold power_is_on. rewrite Hsm. reflexivity.
Qed.

Lemma power_off_is_reported_witness :
  power_is_on ["0"; "1"] (snapshot_of powered_off_bmr) = Returns false.
Proof.
  assert (Hids : Forall (fun cid =>
            exists i, int_of_string cid = Some i
                      /\ i ∈ snapshot_circuit_ids summer_snapshot
                      /\ (0 <= i < Z.of_nat (length (dev_summer_mode_assignments
                                              (sample_bmr (fun _ => Some 21%Q)))))%Z)
         ["0"; "1"]).
  { repeat constructor.
    - exists 0%Z. split; [reflexivity|]. split; [|simpl; lia].
      apply list_elem_of_In. vm_compute. auto.
    - exists 1%Z. split; [reflexivity|]. split; [|simpl; lia].
      apply list_elem_of_In. vm_compute. auto. }
  assert (Hpoll : _async_update_data noon (sample_coordinator powered_off_bmr None)
                  = Returns (snapshot_of powered_off_bmr))
    by (vm_compute; reflexivity).
  exact (power_off_is_reported summer_snapshot (sample_bmr (fun _ => Some 21%Q))
           ["0"; "1"] noon (sample_coordinator powered_off_bmr None)
           (snapshot_of powered_off_bmr) eq_refl Hids eq_refl Hpoll).
Defined.

Lemma power_on_is_reported_witness :
  power_is_on ["0"; "1"] (snapshot_of powered_on_bmr) = Returns true.
Proof.
  assert (Hpoll : _async_update_data noon (sample_coordinator powered_on_bmr None)
                  = Returns (snapshot_of powered_on_bmr))
    by (vm_compute; reflexivity).
  exact (power_on_is_reported summer_snapshot powered_off_bmr ["0"; "1"] noon
           (sample_coordinator powered_on_bmr None)
           (snapshot_of powered_on_bmr) eq_refl eq_refl Hpoll).
Defined.

Lemma py_all_false_at (snapshot : BmrControllerState) ids1 cid ids2 :
  Forall (fun c => exists f, circuit_summer_assigned snapshot c = Returns f) ids1 ->
  circuit_summer_assigned snapshot cid = Returns false ->
  py_all (circuit_summer_assigned snapshot <$> (ids1 ++ cid :: ids2)%list)
  = Returns false.
Proof.
  intros Hall Hcid. induction Hall as [|c ids1 [f Hc] _ IH].
  - cbn. rewrite Hcid. reflexivity.
  - cbn [app fmap list_fmap py_all]. rewrite Hc. destruct f; [exact IH|reflexivity].
Qed.

(** X25: the power switch is turned off through the circuits of the latest
    snapshot, not through the configured ones: when a configured circuit was
    missing from that snapshot and was not assigned to summer mode before,
    the switch still reports on from every snapshot polled afterwards (all
    configured circuits lying within the controller's assignment list). *)
Theorem power_off_misses_dropped_circuit
    (snapshot : BmrControllerState) (b : Bmr) (ids : list string)
    (cid : string) (i : Z)
    (now : datetime) (coordinator : BmrUpdateCoordinator)
    (polled : BmrControllerState) :
  fault b = None ->
  Forall (fun c =>
            exists j, int_of_string c = Some j
                      /\ (0 <= j < Z.of_nat (length (dev_summer_mode_assignments b)))%Z)
         ids ->
  cid ∈ ids ->
  int_of_string cid = Some i ->
  i ∉ snapshot_circuit_ids snapshot ->
  dev_summer_mode_assignments b !! Z.to_nat i = Some false ->
  bmr coordinator = device (run (power_async_turn_off snapshot) b).2 ->
  _async_update_data now coordinator = Returns polled ->
  power_is_on ids polled = Returns true.
Proof.
  intros Hf Hids Hin Hi Hout Hflag Hbmr Hpoll.
  rewrite (power_turn_off_device _ _ Hf) in Hbmr. cbn [snd device] in Hbmr.
  destruct (fetch_state_circuits _ _ (poll_returns_fetch_state _ _ _ Hpoll))
    as (_ & Hsm & Hsma & _).
  rewrite Hbmr in Hsm, Hsma. cbn in Hsm.
  cbn [bmr_apply dev_summer_mode_assignments] in Hsma.
  assert (Hret : forall c j,
            int_of_string c = Some j ->
            (0 <= j < Z.of_nat (length (dev_summer_mode_assignments b)))%Z ->
            exists f, circuit_summer_assigned polled c = Returns f
                      /\ summer_mode_assignments polled !! Z.to_nat j = Some f).
  { intros c j Hj Hrange.
    destruct (lookup_lt_is_Some_2 (summer_mode_assignments polled) (Z.to_nat j))
      as [f Hfj]; [rewrite Hsma, assign_length; lia|].
    exists f. split; [|exact Hfj]. unfold circuit_summer_assigned.
    rewrite (proj2 (py_int_returns _ _) Hj). cbn.
    apply py_getitem_in_range; [rewrite Hsma, assign_length; exact Hrange|exact Hfj]. }
  assert (Hcid : circuit_summer_assigned polled cid = Returns false).
  { rewrite Forall_forall in Hids. destruct (Hids cid Hin) as (j & Hj & Hrange).
    rewrite Hi in Hj. injection Hj as <-.
    destruct (Hret cid i Hi Hrange) as (f & Hc & Hfi). rewrite Hc. f_equal.
    rewrite Hsma, assign_lookup, Hflag in Hfi. cbn in Hfi.
    rewrite Z2Nat.id in Hfi by lia.
    rewrite bool_decide_eq_false_2 in Hfi by exact Hout. congruence. }
  apply list_elem_of_split in Hin. destruct Hin as (ids1 & ids2 & ->).
  unfold power_is_on. rewrite Hsm.
  rewrite (py_all_false_at polled ids1 cid ids2); [reflexivity| |exact Hcid].
  apply Forall_app in Hids. destruct Hids as [Hids1 _].
  eapply Forall_impl; [exact Hids1|].
  intros c (j & Hj & Hrange). destruct (Hret c j Hj Hrange) as (f & Hc & _). eauto.
Qed.

Lemma power_off_misses_dropped_circuit_witness :
  power_is_on ["0"; "1"; "2"] (snapshot_of powered_off_bmr) = Returns true.
Proof.
  assert (Hids : Forall (fun c =>
            exists j, int_of_string c = Some j
                      /\ (0 <= j < Z.of_nat (length (dev_summer_mode_assignments
                                              (sample_bmr (fun _ => Some 21%Q)))))%Z)
         ["0"; "1"; "2"]).
  { apply List.Forall_cons; [exists 0%Z; split; [reflexivity | simpl; lia]|].
    apply List.Forall_cons; [exists 1%Z; split; [reflexivity | simpl; lia]|].
    apply List.Forall_cons; [exists 2%Z; split; [reflexivity | simpl; lia]|].
    apply List.Forall_nil. }
  assert (Hin : "2" ∈ ["0"; "1"; "2"]) by (apply list_elem_of_In; simpl; auto).
  assert (Hout : (2%Z ∉ snapshot_circuit_ids summer_snapshot)).
  { intros H. apply list_elem_of_In in H. vm_compute in H.
    destruct H as [H|[H|[]]]; discriminate. }
  assert (Hpoll : _async_update_data noon (sample_coordinator powered_off_bmr None)
                  = Returns (snapshot_of powered_off_bmr))
    by (vm_compute; reflexivity).
  exact (power_off_misses_dropped_circuit summer_snapshot
           (sample_bmr (fun _ => Some 21%Q)) ["0"; "1"; "2"] "2" 2 noon
           (sample_coordinator powered_off_bmr None) (snapshot_of powered_off_bmr)
           eq_refl Hids Hin eq_refl Hout eq_refl eq_refl Hpoll).
Defined.

(** X26: for a snapshot that carries the low-mode descriptor and contains the
    circuit, the away switch is on exactly when the circuit's climate entity
    shows the away preset. *)
Theorem away_switch_agrees_with_preset
    (snapshot : BmrControllerState) (switch : BmrControllerAwayModeSwitch)
    (self : BmrClimateEntity) (descriptor : LowMode) (cs : CircuitState) :
  low_mode snapshot = Some descriptor ->
  circuits snapshot !! _circuit_id (conf self) = Some cs ->
  away_attr_is_on (away_handle_coordinator_update snapshot switch).2 = Some true
  <-> _attr_preset_mode (climate_handle_coordinator_update snapshot self).2
      = Some CLIMATE_PRESET_AWAY.
Proof.
  intros Hlm Hcs. rewrite (climate_handler_found _ _ _ Hcs), after_lookup_preset.
  unfold away_handle_coordinator_update, preset_mode_of. rewrite Hlm. cbn.
  destruct (enabled descriptor); split; intros H; try reflexivity; discriminate.
Qed.

Lemma away_switch_agrees_with_preset_witness :
  away_attr_is_on
    (away_handle_coordinator_update summer_snapshot new_away_switch).2 = Some true
  <-> _attr_preset_mode
        (climate_handle_coordinator_update summer_snapshot
           (new_climate (sample_conf "1"))).2 = Some CLIMATE_PRESET_AWAY.
Proof.
  exact (away_switch_agrees_with_preset summer_snapshot new_away_switch
           (new_climate (sample_conf "1")) (sample_low_mode true)
           (sample_state 1 (Some 21%Q)) eq_refl eq_refl).
Defined.

(** X27: after the away switch has been turned on (off) on a controller that
    answers, the handler of the switch run on any snapshot polled from that
    controller returns, reports on (off) and publishes once; the low-mode
    temperature it shows is the one the controller had before, which the
    switch does not write. *)
Theorem away_switch_is_reported
    (snapshot : BmrControllerState) (b : Bmr) (value : bool)
    (now : datetime) (coordinator : BmrUpdateCoordinator)
    (polled : BmrControllerState) (switch : BmrControllerAwayModeSwitch) :
  fault b = None ->
  bmr coordinator
  = device (run (if value then away_async_turn_on snapshot
                 else away_async_turn_off snapshot) b).2 ->
  _async_update_data now coordinator = Returns polled ->
  exists switch',
    away_handle_coordinator_update polled switch = (Returns tt, switch')
    /\ away_attr_is_on switch' = Some value
    /\ _away_temperature_attr switch' = lm_temperature (dev_low_mode b)
    /\ away_state_writes switch' = S (away_state_writes switch).
Proof.
  intros Hf Hbmr Hpoll.
  destruct (fetch_state_circuits _ _ (poll_returns_fetch_state _ _ _ Hpoll))
    as (_ & _ & _ & Hlm & _).
  assert (Hdev : dev_low_mode (bmr coordinator)
                 = {| enabled := value;
                      lm_temperature := lm_temperature (dev_low_mode b);
                      start_date := start_date (dev_low_mode b) |}).
  { rewrite Hbmr. unfold run.
    destruct value; unfold away_async_turn_on, away_async_turn_off;
      rewrite two_writes_then_refresh by exact Hf; reflexivity. }
  unfold away_handle_coordinator_update. rewrite Hlm, Hdev.
  eexists. split; [reflexivity|]. repeat split.
Qed.

Lemma away_switch_is_reported_witness :
  exists switch',
    away_handle_coordinator_update (snapshot_of switched_away_bmr) new_away_switch
    = (Returns tt, switch')
    /\ away_attr_is_on switch' = Some true
    /\ _away_temperature_attr switch'
       = lm_temperature (dev_low_mode (sample_bmr (fun _ => Some 21%Q)))
    /\ away_state_writes switch' = 1%nat.
Proof.
  assert (Hpoll :
    _async_update_data noon (sample_coordinator switched_away_bmr None)
    = Returns (snapshot_of switched_away_bmr)) by (vm_compute; reflexivity).
  exact (away_switch_is_reported summer_snapshot (sample_bmr (fun _ => Some 21%Q))
           true noon (sample_coordinator switched_away_bmr None)
           (snapshot_of switched_away_bmr) new_away_switch eq_refl eq_refl Hpoll).
Defined.

(** X28: run on a snapshot a poll returned, the handlers of the two sensors of
    a circuit of that snapshot return, publish once, and show the temperature
    and the target temperature the controller reports for the circuit the
    identifier names. *)
Theorem sensors_show_device_reading
    (now : datetime) (self : BmrUpdateCoordinator) (snapshot : BmrControllerState)
    (sensor : BmrCircuitSensor) (i : Z) :
  _async_update_data now self = Returns snapshot ->
  int_of_string (sensor_circuit_id sensor) = Some i ->
  is_Some (circuits snapshot !! sensor_circuit_id sensor) ->
  (exists sensor',
     temperature_handle_coordinator_update snapshot sensor = (Returns tt, sensor')
     /\ _attr_native_value sensor' = cd_temperature (dev_circuits (bmr self) i)
     /\ sensor_state_writes sensor' = S (sensor_state_writes sensor))
  /\ (exists sensor',
        target_temperature_handle_coordinator_update snapshot sensor
        = (Returns tt, sensor')
        /\ _attr_native_value sensor'
           = cd_target_temperature (dev_circuits (bmr self) i)
        /\ sensor_state_writes sensor' = S (sensor_state_writes sensor)).
Proof.
  intros Hpoll Hi [cs Hcs].
  pose proof (poll_returns_fetch_state _ _ _ Hpoll) as H.
  destruct (fetch_state_circuits _ _ H) as [Hfetch _].
  destruct (fetch_circuits_content _ _ _ _ Hfetch _ cs Hcs)
    as [Hempty|(j & s & _ & _ & Hj & -> & _)].
  { rewrite lookup_empty in Hempty. discriminate. }
  rewrite Hi in Hj. injection Hj as <-.
  unfold temperature_handle_coordinator_update,
    target_temperature_handle_coordinator_update,
    sensor_handle_coordinator_update, mbind, eff_bind, gets, lift, modify,
    dict_getitem.
  rewrite Hcs. split; eexists; (split; [reflexivity|]); split; reflexivity.
Qed.

Lemma sensors_show_device_reading_witness :
  exists sensor',
    temperature_handle_coordinator_update second_snapshot (new_sensor "0")
    = (Returns tt, sensor')
    /\ _attr_native_value sensor'
       = cd_temperature (dev_circuits (bmr second_coordinator) 0)
    /\ sensor_state_writes sensor' = 1%nat.
Proof.
  assert (H : second_poll = Returns second_snapshot) by (vm_compute; reflexivity).
  assert (Hsome : is_Some (circuits second_snapshot !! "0"))
    by (eexists; vm_compute; reflexivity).
  exact (proj1 (sensors_show_device_reading (noon + timedelta_minutes 1)%Z
                  second_coordinator second_snapshot (new_sensor "0") 0
                  H eq_refl Hsome)).
Defined.

(** X29: run on a snapshot a poll returned, the handler of the tariff sensor
    shows the tariff flag the controller reports, always a defined value, and
    publishes once. *)
Theorem tariff_sensor_shows_device_flag
    (now : datetime) (self : BmrUpdateCoordinator) (snapshot : BmrControllerState)
    (sensor : BmrControllerHDO) :
  _async_update_data now self = Returns snapshot ->
  hdo_handle_coordinator_update snapshot sensor
  = (Returns tt,
     {| hdo_attr_is_on := Some (dev_hdo (bmr self));
        hdo_state_writes := S (hdo_state_writes sensor) |}).
Proof.
  intros Hpoll. apply poll_returns_fetch_state in Hpoll.
  unfold fetch_state, getUniqueId, getHDO, getLowMode, getLowModeAssignments,
    getSummerMode, getSummerModeAssignments, request in Hpoll.
  destruct (fault (bmr self)); [discriminate|]. cbn in Hpoll.
  destruct (fetch_circuits self (subentries self) ∅); [|discriminate].
  cbn in Hpoll. injection Hpoll as <-. reflexivity.
Qed.

Lemma tariff_sensor_shows_device_flag_witness :
  hdo_handle_coordinator_update second_snapshot
    {| hdo_attr_is_on := None; hdo_state_writes := 0 |}
  = (Returns tt, {| hdo_attr_is_on := Some false; hdo_state_writes := 1 |}).
Proof.
  assert (H : second_poll = Returns second_snapshot) by (vm_compute; reflexivity).
  exact (tariff_sensor_shows_device_flag (noon + timedelta_minutes 1)%Z
           second_coordinator second_snapshot
           {| hdo_attr_is_on := None; hdo_state_writes := 0 |} H).
Defined.

(** * The derived mode and preset on polled snapshots *)




(** C10, counterexample to the claim as stated: low mode has been enabled on
    the controller, and the poll drops circuit 1, whose reading jumped by 9
    degrees.  The snapshot carries the enabled low-mode descriptor, but the
    handler of circuit 1 raises [KeyError] before the preset is derived: the
    entity keeps the preset none of the previous poll instead of away. *)
Lemma preset_stale_for_dropped_circuit :
  _async_update_data (noon + timedelta_minutes 1)%Z away_jump_coordinator
  = Returns away_jump_snapshot
  /\ enabled <$> low_mode away_jump_snapshot = Some true
  /\ circuits away_jump_snapshot !! "1" = None
  /\ _attr_preset_mode climate_after_first_poll = Some CLIMATE_PRESET_NONE
  /\ climate_handle_coordinator_update away_jump_snapshot climate_after_first_poll
     = (Raises (mkExn KeyError ["1"]), climate_after_first_poll)
  /\ _attr_preset_mode
       (climate_handle_coordinator_update away_jump_snapshot
          climate_after_first_poll).2 <> Some CLIMATE_PRESET_AWAY.
Proof.
  assert (Hnone : circuits away_jump_snapshot !! "1" = None)
    by (vm_compute; reflexivity).
  assert (Hid : _circuit_id (conf climate_after_first_poll) = "1")
    by (vm_compute; reflexivity).
  assert (Hrun : climate_handle_coordinator_update away_jump_snapshot
                   climate_after_first_poll
                 = (Raises (mkExn KeyError ["1"]), climate_after_first_poll)).
  { rewrite <- Hid at 1. apply climate_handler_missing_circuit.
    rewrite Hid. exact Hnone. }
  split; [vm_compute; reflexivity|].
  split; [vm_compute; reflexivity|].
  split; [exact Hnone|].
  split; [vm_compute; reflexivity|].
  split; [exact Hrun|].
  rewrite Hrun. cbn [snd]. vm_compute. discriminate.
Qed.
